(** * 10X serial dilution protocol for the OT-2: model and properties

    Shallow embedding of
    [Serial_Dilutions/Variable Mix Speed/ot-2_fast_10x_serial_dilution.py].

    The script is a client of the Opentrons protocol API.  The API is the
    collaborator: every call the script makes on it ([load_labware],
    [load_instrument], [pick_up_tip], [aspirate], [dispense], [mix],
    [drop_tip]) and every [print] is recorded, in order, in a log.  A well
    argument [plate.columns()[j][0]] is recorded by its address (labware
    handle, column index, row index).

    Of the vendor's side the model keeps what decides how a run of this
    script goes: [columns()] is the list of the 12 columns of 8 wells of a
    96-well plate, indexed as a Python list, and the pipette takes the 96
    tips of a tiprack 8 at a time and raises [OutOfTipsError] when its
    tipracks are used up.

    The script's own state is the two lists [dilutionplate_10X] and
    [tiprack_10X] of [run]; its control effects are [sys.exit()] and the
    exceptions of Python's list indexing and call protocol. *)

From Stdlib Require Import ZArith List String Bool QArith Lia.
Import ListNotations.
Local Open Scope Z_scope.

(** ** Data model *)

(** A labware handle, as returned by [protocol.load_labware(name, slot)]. *)
Record labware : Type := Labware { load_name : string; slot : Z }.

(** The well [plate.columns()[column][row]]. *)
Record well : Type := Well { plate : labware; column : Z; row : Z }.

(** Everything observable of a run, in emission order.  An argument left
    out of a call, so that the vendor's default applies, is [None]. *)
Inductive event : Type :=
| Print (s : string)
| LoadLabware (name : string) (location : Z)
| LoadInstrument (name mount : string) (tip_racks : list labware)
| PickUpTip
| DropTip
| Aspirate (volume : Z) (location : well)
| Dispense (volume : Z) (location : well)
| Mix (repetitions volume : Z) (location : option well) (rate : option Q).

Inductive exception : Type := IndexError | TypeError | OutOfTipsError.

(** How a piece of script ends: normally, by [sys.exit(code)], or by an
    exception nobody catches. *)
Inductive outcome (A : Type) : Type :=
| Normal (a : A)
| SystemExit (code : option Z)
| Raised (e : exception).
Arguments Normal {A} a.
Arguments SystemExit {A} code.
Arguments Raised {A} e.

(** A pipette handle, as returned by [protocol.load_instrument]. *)
Record pipette : Type := Pipette {
  instrument_name : string;
  mount : string;
  tip_racks : list labware
}.

(** The lists of [run] that the methods of [switch] append to, the log, and
    how many times the pipette has taken tips. *)
Record world : Type := World {
  dilutionplate_10X : list labware;
  tiprack_10X : list labware;
  log : list event;
  tips_picked : Z
}.

Definition initial_world : world := World [] [] [] 0.

Definition add_log (w : world) (es : list event) : world :=
  World (dilutionplate_10X w) (tiprack_10X w) (log w ++ es) (tips_picked w).

(** The world after [es] was logged and tips were taken [n] more times. *)
Definition advance (w : world) (es : list event) (n : Z) : world :=
  World (dilutionplate_10X w) (tiprack_10X w) (log w ++ es)
        (tips_picked w + n).

(** The protocol parameters, local constants of [run]. *)
Record params : Type := Params {
  tiprack_type : string;
  plate_type : string;
  pipette_type : string;
  dilution_volume : Z;
  mix_repetitions : Z;
  mix_volume : Z;
  mix_rate : Q
}.

Definition default_params : params :=
  Params "opentrons_96_filtertiprack_200ul"
         "corning_96_wellplate_360ul_flat"
         "p300_multi_gen2"
         20 15 20 (1 # 1)%Q.


(** ** A state monad with early exit *)

Module Script.

Definition M (A : Type) : Type := world -> outcome A * world.

Definition ret {A} (a : A) : M A := fun w => (Normal a, w).

Definition bind {A B} (m : M A) (k : A -> M B) : M B :=
  fun w =>
    match m w with
    | (Normal a, w') => k a w'
    | (SystemExit c, w') => (SystemExit c, w')
    | (Raised e, w') => (Raised e, w')
    end.

Definition emit (e : event) : M unit := fun w => (Normal tt, add_log w [e]).

Definition sys_exit {A} (code : option Z) : M A := fun w => (SystemExit code, w).

Definition raise {A} (e : exception) : M A := fun w => (Raised e, w).

Fixpoint for_each {A} (xs : list A) (body : A -> M unit) : M unit :=
  match xs with
  | [] => ret tt
  | x :: xs' => bind (body x) (fun _ => for_each xs' body)
  end.

End Script.
Import Script.

Notation "x <- m ;; k" := (bind m (fun x => k))
  (at level 61, m at next level, right associativity).
Notation "m ;; k" := (bind m (fun _ => k))
  (at level 61, right associativity).

(** ** Python built-ins the script uses *)

(** [range(n)]: empty when [n <= 0]. *)
Definition py_range (n : Z) : list Z := map Z.of_nat (seq 0 (Z.to_nat n)).

(** [l[i]], negative indices counting from the end. *)
Definition py_index {A} (l : list A) (i : Z) : option A :=
  let n := Z.of_nat (List.length l) in
  if (0 <=? i) && (i <? n) then nth_error l (Z.to_nat i)
  else if (- n <=? i) && (i <? 0) then nth_error l (Z.to_nat (n + i))
  else None.

Definition print (s : string) : M unit := emit (Print s).

(** The exit status the interpreter reports for an outcome: [sys.exit()]
    without argument is status 0, an uncaught exception is status 1. *)
Definition exit_status {A} (o : outcome A) : Z :=
  match o with
  | Normal _ => 0
  | SystemExit None => 0
  | SystemExit (Some c) => c
  | Raised _ => 1
  end.

(** ** The protocol API, recorded *)

(** Modelled from the spec: the labware definitions are the vendor's; a
    plate holds 8 rows and 12 columns of wells. *)
Definition plate_rows : Z := 8.
Definition plate_columns : Z := 12.

(** [plate.columns()]: the list of the columns, each the list of its wells. *)
Definition columns (pl : labware) : list (list well) :=
  map (fun c => map (fun r => Well pl c r) (py_range plate_rows))
      (py_range plate_columns).

(** [plate.columns()[c][r]]. *)
Definition well_at (pl : labware) (c r : Z) : M well :=
  match py_index (columns pl) c with
  | Some col =>
      match py_index col r with
      | Some w => ret w
      | None => raise IndexError
      end
  | None => raise IndexError
  end.

(** Pick-ups one tiprack allows: 96 tips, taken 8 at a time by the
    multichannel pipette. *)
Definition pickups_per_tiprack : Z := 96 / 8.

Definition load_labware (name : string) (location : Z) : M labware :=
  emit (LoadLabware name location) ;; ret (Labware name location).

Definition load_instrument (name mount : string) (tip_racks : list labware)
  : M pipette :=
  emit (LoadInstrument name mount tip_racks) ;;
  ret (Pipette name mount tip_racks).

(** The pick-ups the tipracks of a pipette allow. *)
Definition capacity (pip : pipette) : Z :=
  pickups_per_tiprack * Z.of_nat (List.length (tip_racks pip)).

(** [pipette.pick_up_tip()]: the next tips of the pipette's tipracks, and
    [OutOfTipsError] when they are used up. *)
Definition pick_up_tip (pip : pipette) : M unit :=
  fun w =>
    if tips_picked w <? capacity pip
    then (Normal tt, advance w [PickUpTip] 1)
    else (Raised OutOfTipsError, w).

Definition drop_tip (pip : pipette) : M unit := emit DropTip.
Definition aspirate (pip : pipette) (volume : Z) (location : well) : M unit :=
  emit (Aspirate volume location).
Definition dispense (pip : pipette) (volume : Z) (location : well) : M unit :=
  emit (Dispense volume location).
Definition mix (pip : pipette) (repetitions volume : Z)
  (location : option well) (rate : option Q) : M unit :=
  emit (Mix repetitions volume location rate).

(** ** The script *)

Definition too_many_columns_message : string :=
  "ERROR: Too many columns need to be filled for the number of tipracks available. Program exiting.".

Definition invalid_instances_message : string :=
  "ERROR: Must set instances variable as integer between 1 and 6 inclusive. Program exiting.".

(** Lines 27-30, run when the module is loaded. *)
Definition module_level (instances filled_columns : Z) : M unit :=
  if (instances =? 6) && (filled_columns >? 10) then
    print too_many_columns_message ;;
    sys_exit None
  else ret tt.

Definition how_many (num : Z) : M string :=
  if num =? 6 then ret "six"%string
  else if num =? 5 then ret "five"%string
  else if num =? 4 then ret "four"%string
  else if num =? 3 then ret "three"%string
  else if num =? 2 then ret "two"%string
  else if num =? 1 then ret "one"%string
  else
    print invalid_instances_message ;;
    ret "default"%string.

(** [dilutionplate_10X.append(x)] and [tiprack_10X.append(x)]. *)
Definition dilutionplate_10X_append (x : labware) : M unit :=
  fun w => (Normal tt, World (dilutionplate_10X w ++ [x]) (tiprack_10X w)
                             (log w) (tips_picked w)).
Definition tiprack_10X_append (x : labware) : M unit :=
  fun w => (Normal tt, World (dilutionplate_10X w) (tiprack_10X w ++ [x])
                             (log w) (tips_picked w)).

(** [dilutionplate_10X = []] and [tiprack_10X = []], lines 94-95. *)
Definition init_lists : M unit :=
  fun w => (Normal tt, World [] [] (log w) (tips_picked w)).

Definition get_tiprack_10X : M (list labware) :=
  fun w => (Normal (tiprack_10X w), w).

(** [dilutionplate_10X[i]]. *)
Definition dilutionplate_10X_at (i : Z) : M labware :=
  fun w =>
    match py_index (dilutionplate_10X w) i with
    | Some x => (Normal x, w)
    | None => (Raised IndexError, w)
    end.

(** The class [switch]: each method registers its labware and calls the
    next one down. *)
Module switch.
Section Methods.
Variable p : params.

Definition default : M unit := sys_exit None.

Definition one : M unit :=
  tiprack_10X_1 <- load_labware (tiprack_type p) 8 ;;
  tiprack_10X_append tiprack_10X_1 ;;
  dilutionplate_10X_1 <- load_labware (plate_type p) 9 ;;
  dilutionplate_10X_append dilutionplate_10X_1.

Definition two : M unit :=
  tiprack_10X_2 <- load_labware (tiprack_type p) 10 ;;
  tiprack_10X_append tiprack_10X_2 ;;
  dilutionplate_10X_2 <- load_labware (plate_type p) 11 ;;
  dilutionplate_10X_append dilutionplate_10X_2 ;;
  one.

Definition three : M unit :=
  tiprack_10X_3 <- load_labware (tiprack_type p) 4 ;;
  tiprack_10X_append tiprack_10X_3 ;;
  dilutionplate_10X_3 <- load_labware (plate_type p) 7 ;;
  dilutionplate_10X_append dilutionplate_10X_3 ;;
  two.

Definition four : M unit :=
  tiprack_10X_4 <- load_labware (tiprack_type p) 6 ;;
  tiprack_10X_append tiprack_10X_4 ;;
  dilutionplate_10X_4 <- load_labware (plate_type p) 5 ;;
  dilutionplate_10X_append dilutionplate_10X_4 ;;
  three.

Definition five : M unit :=
  tiprack_10X_5 <- load_labware (tiprack_type p) 2 ;;
  tiprack_10X_append tiprack_10X_5 ;;
  dilutionplate_10X_5 <- load_labware (plate_type p) 3 ;;
  dilutionplate_10X_append dilutionplate_10X_5 ;;
  four.

Definition six : M unit :=
  dilutionplate_10X_6 <- load_labware (plate_type p) 1 ;;
  dilutionplate_10X_append dilutionplate_10X_6 ;;
  five.

(** [getattr(switch, name, 'default')]: the method of that name, and the
    string ['default'] (here [None]) when the class has no such attribute. *)
Definition getattr (name : string) : option (M unit) :=
  if String.eqb name "six" then Some six
  else if String.eqb name "five" then Some five
  else if String.eqb name "four" then Some four
  else if String.eqb name "three" then Some three
  else if String.eqb name "two" then Some two
  else if String.eqb name "one" then Some one
  else if String.eqb name "default" then Some default
  else None.
End Methods.
End switch.

(** Line 155, [getattr(switch, how_many(instances), 'default')()]; calling
    a string raises [TypeError]. *)
Definition select_layout (p : params) (instances : Z) : M unit :=
  name <- how_many instances ;;
  match switch.getattr p name with
  | Some method => method
  | None => raise TypeError
  end.

(** Lines 189-196, one column transfer of instance [i]. *)
Definition transfer (p : params) (right_pipette : pipette) (i j : Z) : M unit :=
  pick_up_tip right_pipette ;;
  src_plate <- dilutionplate_10X_at i ;;
  src <- well_at src_plate j 0 ;;
  aspirate right_pipette (dilution_volume p) src ;;
  dst_plate <- dilutionplate_10X_at i ;;
  dst <- well_at dst_plate (j + 1) 0 ;;
  dispense right_pipette (dilution_volume p) dst ;;
  mix right_pipette (mix_repetitions p) (mix_volume p) None (Some (mix_rate p)) ;;
  drop_tip right_pipette.

(** Lines 183-196, the body of the loop over the instances. *)
Definition dilute (p : params) (right_pipette : pipette) (filled_columns : Z)
  (i : Z) : M unit :=
  pick_up_tip right_pipette ;;
  first_plate <- dilutionplate_10X_at i ;;
  first <- well_at first_plate 0 0 ;;
  mix right_pipette (mix_repetitions p) (mix_volume p) (Some first) None ;;
  drop_tip right_pipette ;;
  for_each (py_range (filled_columns - 1)) (transfer p right_pipette i).

Definition run (p : params) (instances filled_columns : Z) : M unit :=
  init_lists ;;
  select_layout p instances ;;
  tip_racks <- get_tiprack_10X ;;
  right_pipette <- load_instrument (pipette_type p) "right" tip_racks ;;
  for_each (py_range instances) (dilute p right_pipette filled_columns).

(** The whole program: the module is loaded, then the runtime calls [run]. *)
Definition program (p : params) (instances filled_columns : Z) : M unit :=
  module_level instances filled_columns ;;
  run p instances filled_columns.

Definition execute (p : params) (instances filled_columns : Z)
  : outcome unit * world :=
  program p instances filled_columns initial_world.

Definition result (p : params) (instances filled_columns : Z) : outcome unit :=
  fst (execute p instances filled_columns).

Definition trace (p : params) (instances filled_columns : Z) : list event :=
  log (snd (execute p instances filled_columns)).

(** ** Observations on a log *)

(** The calls on the pipette. *)
Definition is_command (e : event) : bool :=
  match e with
  | PickUpTip | DropTip | Aspirate _ _ | Dispense _ _ | Mix _ _ _ _ => true
  | Print _ | LoadLabware _ _ | LoadInstrument _ _ _ => false
  end.

(** The calls on the protocol API: everything but [print]. *)
Definition is_hardware (e : event) : bool :=
  match e with
  | Print _ => false
  | _ => true
  end.

Definition is_load_labware (e : event) : bool :=
  match e with
  | LoadLabware _ _ => true
  | _ => false
  end.

Definition is_print (e : event) : bool :=
  match e with
  | Print _ => true
  | _ => false
  end.

Definition commands (l : list event) : list event := filter is_command l.


(** One use of a tip, from [pick_up_tip] to [drop_tip]. *)
Inductive cycle : Type :=
| MixOnly (repetitions volume : Z) (target : well)
| ColumnTransfer (aspirated : Z) (source : well)
                 (dispensed : Z) (destination : well)
                 (repetitions volume : Z) (rate : Q).

(** Reads a command sequence as a sequence of tip-use cycles; [None] when
    it is not one. *)
Fixpoint cycles (l : list event) : option (list cycle) :=
  match l with
  | [] => Some []
  | PickUpTip :: Mix r v (Some w) None :: DropTip :: l' =>
      option_map (cons (MixOnly r v w)) (cycles l')
  | PickUpTip :: Aspirate a s :: Dispense d t :: Mix r v None (Some q)
      :: DropTip :: l' =>
      option_map (cons (ColumnTransfer a s d t r v q)) (cycles l')
  | _ => None
  end.

Definition is_mix_only (c : cycle) : bool :=
  match c with MixOnly _ _ _ => true | ColumnTransfer _ _ _ _ _ _ _ => false end.

Definition is_column_transfer (c : cycle) : bool :=
  match c with MixOnly _ _ _ => false | ColumnTransfer _ _ _ _ _ _ _ => true end.

(** The events of one column transfer and of one instance, on plate [pl]. *)
Definition transfer_events (p : params) (pl : labware) (j : Z) : list event :=
  [ PickUpTip;
    Aspirate (dilution_volume p) (Well pl j 0);
    Dispense (dilution_volume p) (Well pl (j + 1) 0);
    Mix (mix_repetitions p) (mix_volume p) None (Some (mix_rate p));
    DropTip ].

Definition dilute_events (p : params) (filled_columns : Z) (pl : labware)
  : list event :=
  [ PickUpTip;
    Mix (mix_repetitions p) (mix_volume p) (Some (Well pl 0 0)) None;
    DropTip ]
  ++ flat_map (transfer_events p pl) (py_range (filled_columns - 1)).

(** The layout chosen for an instance count: the world line 155 leaves
    when it returns. *)
Definition layout (p : params) (instances : Z) : world :=
  snd (select_layout p instances initial_world).

Definition plate_slots (p : params) (instances : Z) : list Z :=
  map slot (dilutionplate_10X (layout p instances)).

Definition tiprack_slots (p : params) (instances : Z) : list Z :=
  map slot (tiprack_10X (layout p instances)).

(** A detected error: the script printed a diagnostic and left through
    [sys.exit] without a call on the protocol API. *)
Definition detected_error (r : outcome unit * world) : bool :=
  match fst r with
  | SystemExit _ =>
      existsb is_print (log (snd r))
      && negb (existsb is_hardware (log (snd r)))
  | _ => false
  end.

(** The events of a mix-only first-column step on plate [pl]. *)
Definition mix_only_events (p : params) (pl : labware) : list event :=
  [ PickUpTip;
    Mix (mix_repetitions p) (mix_volume p) (Some (Well pl 0 0)) None;
    DropTip ].

(** The script left through [sys.exit]. *)
Definition exits (o : outcome unit) : bool :=
  match o with
  | SystemExit _ => true
  | _ => false
  end.

(** The world at the end of [run] for a valid count: the layout, then
    [load_instrument], then the commands [es], after [n] pick-ups. *)
Definition ended (p : params) (instances : Z) (es : list event) (n : Z)
  : world :=
  World (dilutionplate_10X (layout p instances))
        (tiprack_10X (layout p instances))
        (log (layout p instances)
         ++ LoadInstrument (pipette_type p) "right"
              (tiprack_10X (layout p instances))
         :: es)
        n.

(** The commands of a dilution of plate [pl] that stops at the transfer
    out of column 11, the last of the plate: before its pick-up, or after
    its aspirate. *)
Definition cut_short_events (p : params) (pl : labware) (aspirated : bool)
  : list event :=
  mix_only_events p pl
  ++ flat_map (transfer_events p pl) (py_range 11)
  ++ (if aspirated
      then [PickUpTip; Aspirate (dilution_volume p) (Well pl 11 0)]
      else []).

(** The ways an execution goes: the module-level check stops it, the
    layout selection stops it, all instances are diluted, or, with more
    than 12 filled columns, the first dilution stops at the transfer out
    of column 11: for want of a tip with one tiprack, and otherwise on
    [columns()[12]], after the aspirate. *)
Inductive execution (p : params) (instances filled_columns : Z) : Prop :=
| TooManyColumns :
    instances = 6 -> 10 < filled_columns ->
    execute p instances filled_columns
    = (SystemExit None, World [] [] [Print too_many_columns_message] 0) ->
    execution p instances filled_columns
| InvalidInstances :
    instances < 1 \/ 6 < instances ->
    execute p instances filled_columns
    = (SystemExit None, World [] [] [Print invalid_instances_message] 0) ->
    execution p instances filled_columns
| Diluted :
    1 <= instances <= 6 ->
    (instances =? 6) && (filled_columns >? 10) = false ->
    filled_columns <= 12 ->
    execute p instances filled_columns
    = (Normal tt,
       ended p instances
         (flat_map (dilute_events p filled_columns)
                   (dilutionplate_10X (layout p instances)))
         (instances * Z.max 1 filled_columns)) ->
    execution p instances filled_columns
| TipsUsedUp (pl : labware) (pls : list labware) :
    instances = 1 -> 12 < filled_columns ->
    dilutionplate_10X (layout p instances) = pl :: pls ->
    execute p instances filled_columns
    = (Raised OutOfTipsError,
       ended p instances (cut_short_events p pl false) 12) ->
    execution p instances filled_columns
| ColumnOutOfRange (pl : labware) (pls : list labware) :
    2 <= instances <= 5 -> 12 < filled_columns ->
    dilutionplate_10X (layout p instances) = pl :: pls ->
    execute p instances filled_columns
    = (Raised IndexError,
       ended p instances (cut_short_events p pl true) 13) ->
    execution p instances filled_columns.



Definition is_aspirate (e : event) : bool :=
  match e with
  | Aspirate _ _ => true
  | _ => false
  end.

Definition is_dispense (e : event) : bool :=
  match e with
  | Dispense _ _ => true
  | _ => false
  end.

(** The tip-use cycles of one instance on plate [pl]. *)
Definition dilute_cycles (p : params) (filled_columns : Z) (pl : labware)
  : list cycle :=
  MixOnly (mix_repetitions p) (mix_volume p) (Well pl 0 0)
  :: map (fun j => ColumnTransfer (dilution_volume p) (Well pl j 0)
                                  (dilution_volume p) (Well pl (j + 1) 0)
                                  (mix_repetitions p) (mix_volume p) (mix_rate p))
         (py_range (filled_columns - 1)).

(** The events of a cycle. *)
Definition cycle_events (c : cycle) : list event :=
  match c with
  | MixOnly r v w => [PickUpTip; Mix r v (Some w) None; DropTip]
  | ColumnTransfer a s d t r v q =>
      [PickUpTip; Aspirate a s; Dispense d t; Mix r v None (Some q); DropTip]
  end.

(** The tip-use cycles of an execution: those of the plates registered when
    it ends. *)
Definition cycles_of (p : params) (instances filled_columns : Z) : list cycle :=
  flat_map (dilute_cycles p filled_columns)
           (dilutionplate_10X (snd (execute p instances filled_columns))).

Definition is_pick_up_tip (e : event) : bool :=
  match e with PickUpTip => true | _ => false end.

Definition is_drop_tip (e : event) : bool :=
  match e with DropTip => true | _ => false end.

(** Every aspirate of [l] is directly followed by the dispense of the same
    volume into the first well of the next column of the same plate. *)
Definition aspirate_then_dispense (l : list event) : Prop :=
  forall (pre : list event) (v : Z) (src : well) (post : list event),
    l = pre ++ Aspirate v src :: post ->
    exists post' : list event,
      row src = 0
      /\ post = Dispense v (Well (plate src) (column src + 1) 0) :: post'.




(** The slots of the [load_labware] calls of a log, in order. *)
Definition loaded_slots (l : list event) : list Z :=
  flat_map (fun e => match e with LoadLabware _ s => [s] | _ => [] end) l.

(** The (plate slot, tiprack slot) bindings of a layout, by position in the
    two lists. *)
Definition bindings (p : params) (instances : Z) : list (Z * Z) :=
  combine (plate_slots p instances) (tiprack_slots p instances).

(** ** Further observations *)

(** How many events of a log satisfy a test. *)
Definition count (test : event -> bool) (l : list event) : nat :=
  List.length (filter test l).

Definition is_load_instrument (e : event) : bool :=
  match e with
  | LoadInstrument _ _ _ => true
  | _ => false
  end.

(** The script ran to its end. *)
Definition completes (o : outcome unit) : bool :=
  match o with
  | Normal _ => true
  | _ => false
  end.

(** The module-level check of lines 27-30, as a test. *)
Definition too_many_columns (instances filled_columns : Z) : bool :=
  (instances =? 6) && (filled_columns >? 10).

(** The instance counts [how_many] has a name for. *)
Definition valid_instances (instances : Z) : bool :=
  (1 <=? instances) && (instances <=? 6).

(** The deck diagram of the docstring of [run], lines 102-111: the slot of
    plate [P k] and of tiprack [T k]; 0 where the diagram has none. *)
Definition diagram_plate (k : Z) : Z :=
  if k =? 1 then 9 else if k =? 2 then 11 else if k =? 3 then 7
  else if k =? 4 then 5 else if k =? 5 then 3 else if k =? 6 then 1 else 0.

Definition diagram_tiprack (k : Z) : Z :=
  if k =? 1 then 8 else if k =? 2 then 10 else if k =? 3 then 4
  else if k =? 4 then 6 else if k =? 5 then 2 else 0.

(** [n, n-1, ..., 1]. *)
Definition countdown (n : Z) : list Z :=
  rev (map (fun k => Z.of_nat k) (seq 1 (Z.to_nat n))).

(** A well argument is on one of [plates], in row 0, inside the plate, and
    in the columns the call may touch when [filled_columns] columns are
    filled: an aspirate up to the last but one, a dispense from the second
    to the last, a mix with a well the first. *)
Definition well_in_bounds (plates : list labware) (filled_columns : Z)
  (e : event) : Prop :=
  match e with
  | Aspirate _ w =>
      In (plate w) plates /\ row w = 0
      /\ 0 <= column w <= filled_columns - 2 /\ column w < plate_columns
  | Dispense _ w =>
      In (plate w) plates /\ row w = 0
      /\ 1 <= column w <= filled_columns - 1 /\ column w < plate_columns
  | Mix _ _ (Some w) _ =>
      In (plate w) plates /\ row w = 0 /\ column w = 0
  | _ => True
  end.

(** The wells aspirated from and dispensed into, in order. *)
Definition aspirated (l : list event) : list well :=
  flat_map (fun e => match e with Aspirate _ w => [w] | _ => [] end) l.

Definition dispensed (l : list event) : list well :=
  flat_map (fun e => match e with Dispense _ w => [w] | _ => [] end) l.

(** What must have happened to a well before [v] is aspirated from it:
    column 0 was mixed by the mix-only step, any other column received a
    dispense of [v]. *)
Definition prepared (p : params) (history : list event) (v : Z) (src : well)
  : Prop :=
  (column src = 0 ->
   In (Mix (mix_repetitions p) (mix_volume p) (Some src) None) history)
  /\ (column src <> 0 -> In (Dispense v src) history).

(** Every aspirate of [l] is from a well prepared by [history] and the
    part of [l] before it. *)
Definition aspirates_prepared (p : params) (history l : list event) : Prop :=
  forall (pre : list event) (v : Z) (src : well) (post : list event),
    l = pre ++ Aspirate v src :: post -> prepared p (history ++ pre) v src.

(** Equality tests on handles and wells. *)
Definition labware_eqb (a b : labware) : bool :=
  String.eqb (load_name a) (load_name b) && (slot a =? slot b).

Definition well_eqb (a b : well) : bool :=
  labware_eqb (plate a) (plate b)
  && (column a =? column b) && (row a =? row b).

(** What a call adds to the volume in well [w]: an aspirate takes its
    volume out, a dispense puts its volume in, a mix leaves it as it is. *)
Definition volume_change (w : well) (e : event) : Z :=
  match e with
  | Aspirate v src => if well_eqb w src then - v else 0
  | Dispense v dst => if well_eqb w dst then v else 0
  | _ => 0
  end.

(** The volume a log adds to well [w], in all. *)
Definition net_volume (w : well) (l : list event) : Z :=
  fold_right (fun e acc => volume_change w e + acc) 0 l.

(** ** Proof automation *)

(** Reads the shape of a log off a successful [cycles] equation. *)
Ltac cycles_shape H :=
  cbn in H;
  repeat match type of H with
         | context [match ?x with _ => _ end] => destruct x; try discriminate
         end;
  unfold option_map in H;
  match type of H with
  | context [cycles ?l] =>
      let E := fresh "E" in
      destruct (cycles l) eqn:E; [injection H as ? ?; subst|discriminate]
  end.

(** Proves [NoDup] of a list of literal slots. *)
Ltac distinct_slots :=
  repeat (constructor; [cbn; intuition discriminate|]); constructor.

(** ** The monad and the loops *)

Lemma add_log_nil (w : world) : add_log w [] = w.
Proof.
  destruct w as [ps ts lg t]. unfold add_log. cbn. now rewrite app_nil_r.
Qed.

Lemma add_log_app (w : world) (a b : list event) :
  add_log (add_log w a) b = add_log w (a ++ b).
Proof. unfold add_log. cbn. now rewrite app_assoc. Qed.

Lemma add_log_plates (w : world) (es : list event) :
  dilutionplate_10X (add_log w es) = dilutionplate_10X w.
Proof. reflexivity. Qed.

Lemma add_log_advance (w : world) (es : list event) :
  add_log w es = advance w es 0.
Proof. unfold add_log, advance. now rewrite Z.add_0_r. Qed.

Lemma advance_advance (w : world) (a b : list event) (n m : Z) :
  advance (advance w a n) b m = advance w (a ++ b) (n + m).
Proof. unfold advance. cbn. now rewrite app_assoc, Z.add_assoc. Qed.

Lemma advance_nil (w : world) : advance w [] 0 = w.
Proof. rewrite <- add_log_advance. apply add_log_nil. Qed.

Lemma bind_normal {A B} (m : M A) (k : A -> M B) (w w' : world) (a : A) :
  m w = (Normal a, w') -> bind m k w = k a w'.
Proof. intros H. unfold bind. now rewrite H. Qed.

Lemma bind_exit {A B} (m : M A) (k : A -> M B) (w w' : world) c :
  m w = (SystemExit c, w') -> bind m k w = (SystemExit c, w').
Proof. intros H. unfold bind. now rewrite H. Qed.

Lemma bind_raised {A B} (m : M A) (k : A -> M B) (w w' : world) e :
  m w = (Raised e, w') -> bind m k w = (Raised e, w').
Proof. intros H. unfold bind. now rewrite H. Qed.

Lemma for_each_app {A} (body : A -> M unit) (a b : list A) (w : world) :
  for_each (a ++ b) body w
  = bind (for_each a body) (fun _ => for_each b body) w.
Proof.
  revert w. induction a as [|x a IH]; intros w; [reflexivity|].
  cbn [app for_each]. unfold bind.
  destruct (body x w) as [[[]|c|e] w']; [|reflexivity|reflexivity].
  rewrite IH. reflexivity.
Qed.

Lemma py_range_nonpos (n : Z) : n <= 0 -> py_range n = [].
Proof.
  intros H. unfold py_range.
  replace (Z.to_nat n) with O by lia. reflexivity.
Qed.

Lemma py_range_length (n : Z) :
  Z.of_nat (List.length (py_range n)) = Z.max 0 n.
Proof. unfold py_range. rewrite length_map, length_seq. lia. Qed.

Lemma py_range_bounds (n j : Z) : In j (py_range n) -> 0 <= j < n.
Proof.
  unfold py_range. intros H. apply in_map_iff in H.
  destruct H as [k [<- H]]. apply in_seq in H. lia.
Qed.

(** [range(n)] with [k <= n] starts as [range(k)] and goes on with [k]. *)
Lemma py_range_split (k n : Z) :
  0 <= k < n ->
  exists rest : list Z, py_range n = py_range k ++ k :: rest.
Proof.
  intros H. unfold py_range.
  replace (Z.to_nat n) with (Z.to_nat k + S (Z.to_nat (n - k - 1)))%nat by lia.
  rewrite seq_app, map_app. cbn [seq map Nat.add].
  rewrite Z2Nat.id by lia.
  eexists. reflexivity.
Qed.

Lemma py_index_middle {A} (pre suf : list A) (x : A) :
  py_index (pre ++ x :: suf) (Z.of_nat (List.length pre)) = Some x.
Proof.
  unfold py_index. rewrite length_app. cbn [List.length].
  replace (0 <=? Z.of_nat (List.length pre)) with true
    by (symmetry; apply Z.leb_le; lia).
  replace (Z.of_nat (List.length pre) <? Z.of_nat (List.length pre + S (List.length suf)))
    with true by (symmetry; apply Z.ltb_lt; lia).
  cbn [andb]. rewrite Nat2Z.id.
  rewrite nth_error_app2 by lia. now rewrite Nat.sub_diag.
Qed.

(** Indexing a list with [range(len(l))] visits its elements in order. *)
Lemma py_index_seq {A} (suf pre : list A) :
  Forall2 (fun i x => py_index (pre ++ suf) i = Some x)
          (map Z.of_nat (seq (List.length pre) (List.length suf))) suf.
Proof.
  revert pre. induction suf as [|x suf IH]; intros pre; cbn.
  - constructor.
  - constructor.
    + apply py_index_middle.
    + specialize (IH (pre ++ [x])).
      rewrite <- app_assoc in IH. cbn in IH.
      rewrite length_app in IH. cbn in IH.
      now rewrite Nat.add_1_r in IH.
Qed.

Lemma py_index_range {A} (l : list A) :
  Forall2 (fun i x => py_index l i = Some x)
          (py_range (Z.of_nat (List.length l))) l.
Proof.
  unfold py_range. rewrite Nat2Z.id. exact (py_index_seq l []).
Qed.

(** Indexing [[g 0, ..., g (n-1)]]: inside, and at or beyond the end. *)
Lemma py_index_tabulate {A} (g : Z -> A) (n i : Z) :
  0 <= i < n -> py_index (map g (py_range n)) i = Some (g i).
Proof.
  intros H. unfold py_index. rewrite length_map, py_range_length.
  replace (0 <=? i) with true by (symmetry; apply Z.leb_le; lia).
  replace (i <? Z.max 0 n) with true by (symmetry; apply Z.ltb_lt; lia).
  cbn [andb]. unfold py_range. rewrite map_map.
  rewrite (nth_error_nth' _ (g 0)) by (rewrite length_map, length_seq; lia).
  f_equal.
  change (g 0) with ((fun k => g (Z.of_nat k)) 0%nat).
  rewrite map_nth, seq_nth by lia.
  cbn [Nat.add]. now rewrite Z2Nat.id by lia.
Qed.

Lemma py_index_beyond {A} (l : list A) (i : Z) :
  Z.of_nat (List.length l) <= i -> py_index l i = None.
Proof.
  intros H. unfold py_index.
  replace (0 <=? i) with true by (symmetry; apply Z.leb_le; lia).
  replace (i <? Z.of_nat (List.length l)) with false
    by (symmetry; apply Z.ltb_ge; lia).
  replace (i <? 0) with false by (symmetry; apply Z.ltb_ge; lia).
  cbn [andb]. now rewrite andb_false_r.
Qed.

(** ** What the script does, step by step *)

Section Steps.
Variable p : params.
Variable right_pipette : pipette.

Lemma emit_then {B} (e : event) (k : unit -> M B) (w : world) :
  bind (emit e) k w = k tt (advance w [e] 0).
Proof. unfold bind, emit. now rewrite add_log_advance. Qed.

Lemma emit_last (e : event) (w : world) :
  emit e w = (Normal tt, advance w [e] 0).
Proof. unfold emit. now rewrite add_log_advance. Qed.

Lemma pick_then {B} (k : unit -> M B) (w : world) :
  tips_picked w < capacity right_pipette ->
  bind (pick_up_tip right_pipette) k w = k tt (advance w [PickUpTip] 1).
Proof.
  intros H. unfold bind, pick_up_tip.
  now replace (tips_picked w <? capacity right_pipette) with true
    by (symmetry; apply Z.ltb_lt; lia).
Qed.

Lemma pick_fails {B} (k : unit -> M B) (w : world) :
  capacity right_pipette <= tips_picked w ->
  bind (pick_up_tip right_pipette) k w = (Raised OutOfTipsError, w).
Proof.
  intros H. unfold bind, pick_up_tip.
  now replace (tips_picked w <? capacity right_pipette) with false
    by (symmetry; apply Z.ltb_ge; lia).
Qed.

Lemma plate_then {B} (i : Z) (pl : labware) (k : labware -> M B) (w : world) :
  py_index (dilutionplate_10X w) i = Some pl ->
  bind (dilutionplate_10X_at i) k w = k pl w.
Proof.
  intros H. apply bind_normal. unfold dilutionplate_10X_at. now rewrite H.
Qed.

(** A well of row 0 inside the plate, and [columns()[c]] beyond it. *)
Lemma well_at_inside (pl : labware) (c : Z) (w : world) :
  0 <= c < plate_columns -> well_at pl c 0 w = (Normal (Well pl c 0), w).
Proof.
  intros H. unfold well_at, columns.
  rewrite (py_index_tabulate
             (fun c => map (fun r => Well pl c r) (py_range plate_rows))) by exact H.
  rewrite (py_index_tabulate (fun r => Well pl c r)) by (unfold plate_rows; lia).
  reflexivity.
Qed.

Lemma well_at_beyond (pl : labware) (c : Z) (w : world) :
  plate_columns <= c -> well_at pl c 0 w = (Raised IndexError, w).
Proof.
  intros H. unfold well_at.
  rewrite py_index_beyond; [reflexivity|].
  unfold columns. rewrite length_map, py_range_length.
  unfold plate_columns in *. lia.
Qed.

Lemma well_then {B} (pl : labware) (c : Z) (k : well -> M B) (w : world) :
  0 <= c < plate_columns ->
  bind (well_at pl c 0) k w = k (Well pl c 0) w.
Proof. intros H. apply bind_normal. now apply well_at_inside. Qed.

Lemma transfer_normal (i j : Z) (pl : labware) (w : world) :
  py_index (dilutionplate_10X w) i = Some pl ->
  tips_picked w < capacity right_pipette ->
  0 <= j < plate_columns - 1 ->
  transfer p right_pipette i j w
  = (Normal tt, advance w (transfer_events p pl j) 1).
Proof.
  intros H T J. unfold transfer, aspirate, dispense, mix, drop_tip.
  rewrite pick_then by exact T.
  rewrite (plate_then i pl), well_then by (trivial; lia).
  rewrite emit_then.
  rewrite (plate_then i pl), well_then by (trivial; lia).
  rewrite !emit_then, emit_last. rewrite !advance_advance. reflexivity.
Qed.

(** The transfer out of the last column of the plate. *)
Lemma transfer_beyond (i : Z) (pl : labware) (w : world) :
  py_index (dilutionplate_10X w) i = Some pl ->
  tips_picked w < capacity right_pipette ->
  transfer p right_pipette i (plate_columns - 1) w
  = (Raised IndexError,
     advance w [PickUpTip;
                Aspirate (dilution_volume p) (Well pl (plate_columns - 1) 0)] 1).
Proof.
  intros H T. unfold transfer, aspirate.
  rewrite pick_then by exact T.
  rewrite (plate_then i pl), well_then by (trivial; unfold plate_columns; lia).
  rewrite emit_then.
  rewrite (plate_then i pl) by trivial.
  assert (B : plate_columns <= plate_columns - 1 + 1) by lia.
  rewrite (bind_raised _ _ _ _ _ (well_at_beyond pl _ _ B)).
  rewrite !advance_advance. reflexivity.
Qed.

Lemma transfer_no_tip (i j : Z) (w : world) :
  capacity right_pipette <= tips_picked w ->
  transfer p right_pipette i j w = (Raised OutOfTipsError, w).
Proof. intros T. unfold transfer. now rewrite pick_fails. Qed.

Lemma for_each_transfer (i : Z) (pl : labware) (js : list Z) :
  forall w : world,
    py_index (dilutionplate_10X w) i = Some pl ->
    (forall j, In j js -> 0 <= j < plate_columns - 1) ->
    tips_picked w + Z.of_nat (List.length js) <= capacity right_pipette ->
    for_each js (transfer p right_pipette i) w
    = (Normal tt,
       advance w (flat_map (transfer_events p pl) js) (Z.of_nat (List.length js))).
Proof.
  induction js as [|j js IH]; intros w H J T.
  - cbn. now rewrite advance_nil.
  - cbn [for_each flat_map]. cbn [List.length] in T |- *.
    rewrite (bind_normal _ _ _ _ _ (transfer_normal i j pl w H ltac:(lia)
                                      (J j (or_introl eq_refl)))).
    rewrite IH.
    + rewrite advance_advance. f_equal. f_equal. lia.
    + exact H.
    + intros k Hk. apply J. now right.
    + cbn [advance tips_picked]. lia.
Qed.

Lemma dilute_normal (filled_columns i : Z) (pl : labware) (w : world) :
  py_index (dilutionplate_10X w) i = Some pl ->
  filled_columns <= plate_columns ->
  tips_picked w + Z.max 1 filled_columns <= capacity right_pipette ->
  dilute p right_pipette filled_columns i w
  = (Normal tt,
     advance w (dilute_events p filled_columns pl) (Z.max 1 filled_columns)).
Proof.
  intros H F T. unfold dilute, mix, drop_tip.
  rewrite pick_then by lia.
  rewrite (plate_then i pl), well_then by (trivial; unfold plate_columns; lia).
  rewrite !emit_then.
  rewrite (for_each_transfer i pl).
  - rewrite !advance_advance. unfold dilute_events. cbn [app].
    f_equal. f_equal. rewrite py_range_length. lia.
  - exact H.
  - intros j Hj. apply py_range_bounds in Hj. lia.
  - cbn [advance tips_picked]. rewrite py_range_length. lia.
Qed.

(** With more than 12 filled columns a dilution stops at the transfer out
    of column 11: before its pick-up when no tip is left, and otherwise on
    [columns()[12]], after its aspirate. *)
Lemma dilute_cut_short (filled_columns i : Z) (pl : labware) (w : world) :
  py_index (dilutionplate_10X w) i = Some pl ->
  plate_columns < filled_columns ->
  tips_picked w + 12 <= capacity right_pipette ->
  dilute p right_pipette filled_columns i w
  = if tips_picked w + 12 <? capacity right_pipette
    then (Raised IndexError, advance w (cut_short_events p pl true) 13)
    else (Raised OutOfTipsError, advance w (cut_short_events p pl false) 12).
Proof.
  intros H F T. unfold plate_columns in F. unfold dilute, mix, drop_tip.
  rewrite pick_then by lia.
  rewrite (plate_then i pl), well_then by (trivial; unfold plate_columns; lia).
  rewrite !emit_then, !advance_advance.
  destruct (py_range_split 11 (filled_columns - 1) ltac:(lia)) as [rest ->].
  rewrite for_each_app.
  match goal with
  | |- bind _ _ ?W = _ =>
      rewrite (bind_normal _ _ _ _ _
                 (for_each_transfer i pl (py_range 11) W H
                    ltac:(intros j Hj; apply py_range_bounds in Hj;
                          unfold plate_columns; lia)
                    ltac:(cbn [advance tips_picked];
                          rewrite py_range_length; lia)))
  end.
  rewrite py_range_length. rewrite !advance_advance.
  cbn [for_each]. unfold cut_short_events, mix_only_events.
  destruct (Z.ltb_spec (tips_picked w + 12) (capacity right_pipette)) as [L|L].
  - match goal with
    | |- bind _ _ ?W = _ =>
        pose proof (transfer_beyond i pl W H
                      ltac:(cbn [advance tips_picked]; lia)) as X
    end.
    change (plate_columns - 1) with 11 in X.
    rewrite (bind_raised _ _ _ _ _ X).
    rewrite advance_advance. cbn [app]. rewrite <- ?app_assoc.
    reflexivity.
  - match goal with
    | |- bind _ _ ?W = _ =>
        rewrite (bind_raised _ _ _ _ _
                   (transfer_no_tip i 11 W
                      ltac:(cbn [advance tips_picked]; lia)))
    end.
    cbn [app]. rewrite ?app_nil_r. reflexivity.
Qed.

Lemma for_each_dilute (filled_columns : Z) (idxs : list Z) :
  forall (pls : list labware) (w : world),
    Forall2 (fun i pl => py_index (dilutionplate_10X w) i = Some pl) idxs pls ->
    filled_columns <= plate_columns ->
    tips_picked w + Z.of_nat (List.length idxs) * Z.max 1 filled_columns
    <= capacity right_pipette ->
    for_each idxs (dilute p right_pipette filled_columns) w
    = (Normal tt,
       advance w (flat_map (dilute_events p filled_columns) pls)
         (Z.of_nat (List.length idxs) * Z.max 1 filled_columns)).
Proof.
  induction idxs as [|i idxs IH]; intros pls w H F T;
    inversion H as [|? pl ? pls' Hi Hrest]; subst.
  - cbn. now rewrite advance_nil.
  - cbn [for_each flat_map]. cbn [List.length] in T |- *.
    rewrite (bind_normal _ _ _ _ _
               (dilute_normal filled_columns i pl w Hi F ltac:(nia))).
    rewrite (IH pls').
    + rewrite advance_advance. f_equal. f_equal. lia.
    + exact Hrest.
    + exact F.
    + cbn [advance tips_picked]. lia.
Qed.
End Steps.

(** ** The layout selection and the whole run *)

Section Run.
Variable p : params.

(** [how_many] outside 1..6 prints the diagnostic and names [default]. *)
Lemma how_many_invalid (num : Z) (w : world) :
  num < 1 \/ 6 < num ->
  how_many num w
  = (Normal "default"%string, add_log w [Print invalid_instances_message]).
Proof.
  intros H. unfold how_many.
  repeat match goal with
         | |- context [?a =? ?b] =>
             destruct (Z.eqb_spec a b); [exfalso; lia|]
         end.
  reflexivity.
Qed.

Lemma select_layout_invalid (instances : Z) (w : world) :
  instances < 1 \/ 6 < instances ->
  select_layout p instances w
  = (SystemExit None, add_log w [Print invalid_instances_message]).
Proof.
  intros H. unfold select_layout.
  rewrite (bind_normal _ _ _ _ _ (how_many_invalid instances w H)).
  reflexivity.
Qed.

Lemma valid_cases (instances : Z) :
  1 <= instances <= 6 ->
  instances = 1 \/ instances = 2 \/ instances = 3
  \/ instances = 4 \/ instances = 5 \/ instances = 6.
Proof. lia. Qed.

(** Inside 1..6 the selection returns normally, with as many plates as
    instances, and nothing in the log but what it loaded. *)
Lemma select_layout_valid (instances : Z) :
  1 <= instances <= 6 ->
  select_layout p instances initial_world = (Normal tt, layout p instances)
  /\ Z.of_nat (List.length (dilutionplate_10X (layout p instances))) = instances.
Proof.
  intros H. unfold layout.
  destruct (valid_cases instances H) as [E|[E|[E|[E|[E|E]]]]]; subst instances;
    split; reflexivity.
Qed.

(** The selection takes no tip, and registers a tiprack for each instance
    up to five. *)
Lemma layout_tips (instances : Z) :
  1 <= instances <= 6 ->
  tips_picked (layout p instances) = 0
  /\ Z.of_nat (List.length (tiprack_10X (layout p instances)))
     = Z.min instances 5.
Proof.
  intros H.
  destruct (valid_cases instances H) as [E|[E|[E|[E|[E|E]]]]]; subst instances;
    split; reflexivity.
Qed.

(** [run] up to the loop: the layout is selected and the pipette loaded. *)
Lemma run_to_loop (instances filled_columns : Z) :
  1 <= instances <= 6 ->
  run p instances filled_columns initial_world
  = for_each (py_range instances)
      (dilute p (Pipette (pipette_type p) "right"
                         (tiprack_10X (layout p instances)))
              filled_columns)
      (ended p instances [] 0).
Proof.
  intros H. destruct (select_layout_valid instances H) as [Hsel _].
  destruct (layout_tips instances H) as [Ht _].
  unfold run.
  unfold bind at 1. unfold init_lists at 1. cbn [log tips_picked initial_world].
  fold initial_world.
  rewrite (bind_normal _ _ _ _ _ Hsel).
  unfold bind at 1. unfold get_tiprack_10X at 1.
  unfold load_instrument.
  unfold bind at 1. unfold bind at 1. unfold emit at 1. unfold ret at 1.
  unfold add_log, ended. now rewrite Ht.
Qed.

Lemma ended_advance (instances : Z) (es es' : list event) (n m : Z) :
  advance (ended p instances es n) es' m = ended p instances (es ++ es') (n + m).
Proof.
  unfold advance, ended. cbn [dilutionplate_10X tiprack_10X log tips_picked].
  now rewrite <- app_assoc.
Qed.

Lemma run_valid (instances filled_columns : Z) :
  1 <= instances <= 6 ->
  (instances =? 6) && (filled_columns >? 10) = false ->
  filled_columns <= 12 ->
  run p instances filled_columns initial_world
  = (Normal tt,
     ended p instances
       (flat_map (dilute_events p filled_columns)
                 (dilutionplate_10X (layout p instances)))
       (instances * Z.max 1 filled_columns)).
Proof.
  intros H G F. destruct (select_layout_valid instances H) as [_ Hlen].
  destruct (layout_tips instances H) as [_ Hracks].
  rewrite (run_to_loop instances filled_columns H).
  rewrite (for_each_dilute p _ filled_columns _
             (dilutionplate_10X (layout p instances))).
  - rewrite ended_advance. cbn [app]. rewrite py_range_length. f_equal.
    f_equal. lia.
  - pose proof (py_index_range (dilutionplate_10X (layout p instances))) as R.
    now rewrite Hlen in R.
  - exact F.
  - unfold capacity. cbn [tip_racks ended tips_picked].
    rewrite Hracks, py_range_length. change pickups_per_tiprack with 12.
    apply andb_false_iff in G. destruct G as [G|G].
    + apply Z.eqb_neq in G. nia.
    + rewrite Z.gtb_ltb in G. apply Z.ltb_ge in G. nia.
Qed.

(** With more than 12 filled columns the run stops in its first dilution. *)
Lemma run_cut_short (instances filled_columns : Z) :
  1 <= instances <= 5 ->
  12 < filled_columns ->
  exists (pl : labware) (pls : list labware),
    dilutionplate_10X (layout p instances) = pl :: pls
    /\ run p instances filled_columns initial_world
       = if instances =? 1
         then (Raised OutOfTipsError,
               ended p instances (cut_short_events p pl false) 12)
         else (Raised IndexError,
               ended p instances (cut_short_events p pl true) 13).
Proof.
  intros H F.
  assert (V : 1 <= instances <= 6) by lia.
  destruct (select_layout_valid instances V) as [_ Hlen].
  destruct (layout_tips instances V) as [_ Hracks].
  destruct (dilutionplate_10X (layout p instances)) as [|pl pls] eqn:P;
    [cbn in Hlen; lia|].
  exists pl, pls. split; [reflexivity|].
  rewrite (run_to_loop instances filled_columns V).
  destruct (py_range_split 0 instances ltac:(lia)) as [rest ->].
  cbn [py_range Z.to_nat seq map app for_each].
  pose proof (dilute_cut_short p
                (Pipette (pipette_type p) "right" (tiprack_10X (layout p instances)))
                filled_columns 0 pl (ended p instances [] 0)) as D.
  assert (C : capacity (Pipette (pipette_type p) "right"
                          (tiprack_10X (layout p instances)))
              = 12 * instances).
  { unfold capacity. cbn [tip_racks]. rewrite Hracks.
    change pickups_per_tiprack with 12. lia. }
  rewrite C in D. cbn [ended tips_picked dilutionplate_10X] in D.
  rewrite P in D.
  specialize (D eq_refl ltac:(unfold plate_columns; lia) ltac:(lia)).
  fold (ended p instances [] 0) in D.
  rewrite !ended_advance in D. cbn [app Z.add] in D.
  destruct (Z.eqb_spec instances 1) as [E|E].
  - replace (12 <? 12 * instances) with false in D
      by (symmetry; apply Z.ltb_ge; lia).
    now rewrite (bind_raised _ _ _ _ _ D).
  - replace (12 <? 12 * instances) with true in D
      by (symmetry; apply Z.ltb_lt; lia).
    now rewrite (bind_raised _ _ _ _ _ D).
Qed.

Lemma run_invalid (instances filled_columns : Z) :
  instances < 1 \/ 6 < instances ->
  run p instances filled_columns initial_world
  = (SystemExit None, World [] [] [Print invalid_instances_message] 0).
Proof.
  intros H. unfold run.
  unfold bind at 1. unfold init_lists at 1. cbn [log tips_picked initial_world].
  fold initial_world.
  now rewrite (bind_exit _ _ _ _ _ (select_layout_invalid instances initial_world H)).
Qed.

(** The ways a whole execution goes. *)
Lemma execute_too_many_columns (filled_columns : Z) :
  10 < filled_columns ->
  execute p 6 filled_columns
  = (SystemExit None, World [] [] [Print too_many_columns_message] 0).
Proof.
  intros H. unfold execute, program, module_level.
  replace (filled_columns >? 10) with true by (symmetry; apply Z.gtb_lt; lia).
  reflexivity.
Qed.

Lemma execute_run (instances filled_columns : Z) :
  (instances =? 6) && (filled_columns >? 10) = false ->
  execute p instances filled_columns
  = run p instances filled_columns initial_world.
Proof.
  intros G. unfold execute, program, module_level. now rewrite G.
Qed.

Lemma execute_invalid (instances filled_columns : Z) :
  instances < 1 \/ 6 < instances ->
  execute p instances filled_columns
  = (SystemExit None, World [] [] [Print invalid_instances_message] 0).
Proof.
  intros H. rewrite execute_run; [now apply run_invalid|].
  apply andb_false_iff. left. apply Z.eqb_neq. lia.
Qed.

Lemma execute_valid (instances filled_columns : Z) :
  1 <= instances <= 6 ->
  (instances =? 6) && (filled_columns >? 10) = false ->
  filled_columns <= 12 ->
  execute p instances filled_columns
  = (Normal tt,
     ended p instances
       (flat_map (dilute_events p filled_columns)
                 (dilutionplate_10X (layout p instances)))
       (instances * Z.max 1 filled_columns)).
Proof.
  intros H G F. rewrite (execute_run _ _ G). now apply run_valid.
Qed.

Lemma execute_cut_short (instances filled_columns : Z) :
  1 <= instances <= 5 ->
  12 < filled_columns ->
  exists (pl : labware) (pls : list labware),
    dilutionplate_10X (layout p instances) = pl :: pls
    /\ execute p instances filled_columns
       = if instances =? 1
         then (Raised OutOfTipsError,
               ended p instances (cut_short_events p pl false) 12)
         else (Raised IndexError,
               ended p instances (cut_short_events p pl true) 13).
Proof.
  intros H F. rewrite execute_run; [now apply run_cut_short|].
  apply andb_false_iff. left. apply Z.eqb_neq. lia.
Qed.
End Run.

(** ** Every execution is one of five *)

Lemma execute_cases (p : params) (instances filled_columns : Z) :
  execution p instances filled_columns.
Proof.
  destruct (Z_lt_le_dec instances 1) as [Lo|Lo].
  { apply InvalidInstances; [now left|apply execute_invalid; now left]. }
  destruct (Z_lt_le_dec 6 instances) as [Hi|Hi].
  { apply InvalidInstances; [now right|apply execute_invalid; now right]. }
  destruct ((instances =? 6) && (filled_columns >? 10)) eqn:G.
  { apply andb_true_iff in G. destruct G as [E F].
    apply Z.eqb_eq in E. apply Z.gtb_lt in F. subst instances.
    apply TooManyColumns; trivial. now apply execute_too_many_columns. }
  destruct (Z_le_gt_dec filled_columns 12) as [F|F].
  { apply Diluted; trivial; [lia|]. apply execute_valid; trivial. lia. }
  assert (V : 1 <= instances <= 5).
  { apply andb_false_iff in G. destruct G as [G|G].
    - apply Z.eqb_neq in G. lia.
    - rewrite Z.gtb_ltb in G. apply Z.ltb_ge in G. lia. }
  destruct (execute_cut_short p instances filled_columns V ltac:(lia))
    as [pl [pls [P X]]].
  destruct (Z.eqb_spec instances 1) as [E|E].
  - apply (TipsUsedUp p instances filled_columns pl pls); trivial. lia.
  - apply (ColumnOutOfRange p instances filled_columns pl pls); trivial; lia.
Qed.

(** ** Lists of events *)

Lemma filter_all {A} (f : A -> bool) (l : list A) :
  Forall (fun x => f x = true) l -> filter f l = l.
Proof.
  induction 1 as [|x l Hx _ IH]; cbn; [reflexivity|]. now rewrite Hx, IH.
Qed.

Lemma filter_none {A} (f : A -> bool) (l : list A) :
  Forall (fun x => f x = false) l -> filter f l = [].
Proof.
  induction 1 as [|x l Hx _ IH]; cbn; [reflexivity|]. now rewrite Hx.
Qed.

Lemma Forall_flat_map_intro {A B} (P : B -> Prop) (g : A -> list B) (l : list A) :
  (forall x, Forall P (g x)) -> Forall P (flat_map g l).
Proof.
  intros H. induction l as [|x l IH]; cbn; [constructor|].
  apply Forall_app. split; [apply H|exact IH].
Qed.

Lemma transfer_events_commands (p : params) (pl : labware) (j : Z) :
  Forall (fun e => is_command e = true) (transfer_events p pl j).
Proof. repeat constructor. Qed.

Lemma dilute_events_commands (p : params) (f : Z) (pl : labware) :
  Forall (fun e => is_command e = true) (dilute_events p f pl).
Proof.
  unfold dilute_events. apply Forall_app. split; [repeat constructor|].
  apply Forall_flat_map_intro. intros j. apply transfer_events_commands.
Qed.

(** The selection logs [load_labware] calls and nothing else. *)
Lemma layout_log_loads (p : params) (instances : Z) :
  1 <= instances <= 6 ->
  Forall (fun e => is_load_labware e = true) (log (layout p instances)).
Proof.
  intros H.
  destruct (valid_cases instances H) as [E|[E|[E|[E|[E|E]]]]]; subst instances;
    repeat constructor.
Qed.

Lemma load_not_command (e : event) : is_load_labware e = true -> is_command e = false.
Proof. now destruct e. Qed.

Lemma load_is_hardware (e : event) : is_load_labware e = true -> is_hardware e = true.
Proof. now destruct e. Qed.

Lemma cut_short_events_commands (p : params) (pl : labware) (b : bool) :
  Forall (fun e => is_command e = true) (cut_short_events p pl b).
Proof.
  unfold cut_short_events. apply Forall_app. split; [repeat constructor|].
  apply Forall_app. split.
  - apply Forall_flat_map_intro. intros j. apply transfer_events_commands.
  - destruct b; repeat constructor.
Qed.

(** The commands of a run that got to the loop are what the loop logged. *)
Lemma commands_ended (p : params) (instances : Z) (es : list event) (n : Z) :
  1 <= instances <= 6 ->
  Forall (fun e => is_command e = true) es ->
  commands (log (ended p instances es n)) = es.
Proof.
  intros H C. unfold commands, ended. cbn [log].
  rewrite filter_app. cbn [filter is_command].
  rewrite filter_none, filter_all; trivial.
  eapply Forall_impl; [|apply (layout_log_loads p instances H)].
  apply load_not_command.
Qed.

(** A dilution cut short is the start of the whole dilution; cut before
    the pick-up, it is the dilution of 12 columns. *)
Lemma cut_short_prefix (p : params) (f : Z) (pl : labware) (b : bool) :
  12 < f ->
  exists rest : list event,
    cut_short_events p pl b ++ rest = dilute_events p f pl.
Proof.
  intros F. unfold dilute_events, cut_short_events, mix_only_events.
  destruct (py_range_split 11 (f - 1) ltac:(lia)) as [js ->].
  rewrite flat_map_app. cbn [flat_map transfer_events].
  destruct b.
  - exists ([Dispense (dilution_volume p) (Well pl (11 + 1) 0);
             Mix (mix_repetitions p) (mix_volume p) None (Some (mix_rate p));
             DropTip]
            ++ flat_map (transfer_events p pl) js).
    rewrite <- !app_assoc. reflexivity.
  - exists (transfer_events p pl 11 ++ flat_map (transfer_events p pl) js).
    rewrite <- !app_assoc. reflexivity.
Qed.

Lemma cut_short_before_pick_up (p : params) (pl : labware) :
  cut_short_events p pl false = dilute_events p 12 pl.
Proof.
  unfold cut_short_events, dilute_events, mix_only_events.
  now rewrite app_nil_r.
Qed.

(** The pipette commands of an execution start the dilutions of the
    plates the script has registered when it ends, in list order. *)
Lemma commands_prefix (p : params) (instances filled_columns : Z) :
  exists rest : list event,
    commands (trace p instances filled_columns) ++ rest
    = flat_map (dilute_events p filled_columns)
               (dilutionplate_10X (snd (execute p instances filled_columns))).
Proof.
  unfold trace.
  destruct (execute_cases p instances filled_columns)
    as [_ _ E|_ E|H _ _ E|pl pls N1 F P E|pl pls N25 F P E]; rewrite E;
    cbn [snd].
  - now exists [].
  - now exists [].
  - exists []. rewrite app_nil_r. apply commands_ended; [exact H|].
    apply Forall_flat_map_intro. intros pl. apply dilute_events_commands.
  - rewrite commands_ended
      by (try lia; apply cut_short_events_commands).
    cbn [ended dilutionplate_10X]. rewrite P. cbn [flat_map].
    destruct (cut_short_prefix p filled_columns pl false F) as [rest <-].
    eexists. rewrite <- app_assoc. reflexivity.
  - rewrite commands_ended
      by (try lia; apply cut_short_events_commands).
    cbn [ended dilutionplate_10X]. rewrite P. cbn [flat_map].
    destruct (cut_short_prefix p filled_columns pl true F) as [rest <-].
    eexists. rewrite <- app_assoc. reflexivity.
Qed.

(** With at most 12 filled columns they are those dilutions, all of them. *)
Lemma commands_trace (p : params) (instances filled_columns : Z) :
  filled_columns <= 12 ->
  commands (trace p instances filled_columns)
  = flat_map (dilute_events p filled_columns)
             (dilutionplate_10X (snd (execute p instances filled_columns))).
Proof.
  intros F12. unfold trace.
  destruct (execute_cases p instances filled_columns)
    as [_ _ E|_ E|H _ _ E|pl pls _ F _ _|pl pls _ F _ _]; try lia;
    rewrite E; try reflexivity.
  apply commands_ended; [exact H|].
  apply Forall_flat_map_intro. intros pl. apply dilute_events_commands.
Qed.

(** A log is its loads, the [load_instrument] and its commands whenever
    the run got to the loop. *)
Lemma trace_ended (p : params) (instances filled_columns : Z) :
  1 <= instances <= 6 ->
  (instances =? 6) && (filled_columns >? 10) = false ->
  trace p instances filled_columns
  = log (layout p instances)
    ++ LoadInstrument (pipette_type p) "right" (tiprack_10X (layout p instances))
    :: commands (trace p instances filled_columns).
Proof.
  intros V G. unfold trace.
  destruct (execute_cases p instances filled_columns)
    as [N6 F E|I E|H _ _ E|pl pls N1 F P E|pl pls N25 F P E]; rewrite E;
    cbn [snd].
  - exfalso. subst instances. apply andb_false_iff in G.
    destruct G as [G|G]; [discriminate|].
    rewrite Z.gtb_ltb in G. apply Z.ltb_ge in G. lia.
  - exfalso. lia.
  - rewrite commands_ended; [reflexivity|exact H|].
    apply Forall_flat_map_intro. intros pl. apply dilute_events_commands.
  - rewrite commands_ended; [reflexivity|lia|apply cut_short_events_commands].
  - rewrite commands_ended; [reflexivity|lia|apply cut_short_events_commands].
Qed.

(** ** Tip-use cycles *)

(** A sequence read by [cycles] is the concatenation of its cycles. *)
Lemma cycles_sound (cs : list cycle) :
  forall l : list event, cycles l = Some cs -> l = flat_map cycle_events cs.
Proof.
  induction cs as [|c cs IH]; intros l H.
  - destruct l as [|e l]; [reflexivity|]. exfalso.
    cbn in H.
    repeat match type of H with
           | context [match ?x with _ => _ end] => destruct x; try discriminate
           end;
    unfold option_map in H;
    match type of H with
    | context [cycles ?l] => destruct (cycles l); discriminate
    end.
  - destruct l as [|e l]; [discriminate|].
    cycles_shape H; cbn; f_equal; f_equal; f_equal; try (f_equal; f_equal);
      now apply IH.
Qed.





Lemma flat_map_flat_map {A B C} (g : A -> list B) (h : B -> list C) (l : list A) :
  flat_map h (flat_map g l) = flat_map (fun x => flat_map h (g x)) l.
Proof.
  induction l as [|x l IH]; cbn; [reflexivity|].
  now rewrite flat_map_app, IH.
Qed.




(** ** The tip discipline *)




(** ** Counting cycles *)

(** C7: with 3 instances and 6 filled columns the command sequence is 18
    tip-use cycles: 3 mix-only steps, one per plate on the first well of
    column 0, and 15 column transfers; so 18 [pick_up_tip], 18 [drop_tip],
    15 aspirates and 15 dispenses. *)
Theorem three_instances_six_columns (p : params) :
  exists cs : list cycle,
    cycles (commands (trace p 3 6)) = Some cs
    /\ List.length cs = 18%nat
    /\ filter is_mix_only cs
       = map (fun pl => MixOnly (mix_repetitions p) (mix_volume p) (Well pl 0 0))
             (dilutionplate_10X (layout p 3))
    /\ List.length (filter is_mix_only cs) = 3%nat
    /\ List.length (filter is_column_transfer cs) = 15%nat
    /\ List.length (filter is_pick_up_tip (commands (trace p 3 6))) = 18%nat
    /\ List.length (filter is_drop_tip (commands (trace p 3 6))) = 18%nat
    /\ List.length (filter is_aspirate (commands (trace p 3 6))) = 15%nat
    /\ List.length (filter is_dispense (commands (trace p 3 6))) = 15%nat.
Proof.
  exists (cycles_of p 3 6). repeat split; reflexivity.
Qed.

(** ** Invalid configurations *)

(** C6: with an instance count outside 1..6, 0 included, the script ends in
    [sys.exit] and its log holds no call on the protocol API: no
    [load_labware], no [load_instrument], no pipette command. *)
Theorem invalid_count_no_hardware (p : params) (instances filled_columns : Z) :
  instances < 1 \/ 6 < instances ->
  result p instances filled_columns = SystemExit None
  /\ filter is_hardware (trace p instances filled_columns) = [].
Proof.
  intros H. unfold result, trace.
  now rewrite (execute_invalid p instances filled_columns H).
Qed.

Lemma invalid_count_no_hardware_witness :
  (0 < 1 \/ 6 < 0)
  /\ result default_params 0 6 = SystemExit None
  /\ filter is_hardware (trace default_params 0 6) = [].
Proof.
  split; [left; lia|]. apply (invalid_count_no_hardware default_params 0 6).
  left; lia.
Defined.

(** C4, as the script has it: with an instance count outside 1..6 the
    script prints the diagnostic and nothing else, and ends in [sys.exit()]
    called without a status, which is exit status 0. *)
Theorem invalid_count_exit (p : params) (instances filled_columns : Z) :
  instances < 1 \/ 6 < instances ->
  trace p instances filled_columns = [Print invalid_instances_message]
  /\ result p instances filled_columns = SystemExit None
  /\ exit_status (result p instances filled_columns) = 0.
Proof.
  intros H. unfold result, trace.
  now rewrite (execute_invalid p instances filled_columns H).
Qed.

Lemma invalid_count_exit_witness :
  (7 < 1 \/ 6 < 7)
  /\ trace default_params 7 6 = [Print invalid_instances_message]
  /\ result default_params 7 6 = SystemExit None
  /\ exit_status (result default_params 7 6) = 0.
Proof.
  split; [right; lia|]. apply (invalid_count_exit default_params 7 6).
  right; lia.
Defined.

(** C4 as stated fails: with the instance count 0 of the source the exit
    status is not nonzero. *)
Lemma invalid_count_exit_status_zero :
  (0 < 1 \/ 6 < 0) /\ ~ exit_status (result default_params 0 6) <> 0.
Proof.
  split; [left; lia|]. intros H. apply H. reflexivity.
Qed.

(** C3, as the script has it: there are two detected errors, an instance
    count outside 1..6 and, with 6 instances, more than 10 filled columns.
    The script leaves through [sys.exit] on these and on nothing else; in
    every other configuration it detects no error and goes on to call the
    protocol API. *)
Theorem detected_errors (p : params) (instances filled_columns : Z) :
  detected_error (execute p instances filled_columns)
  = negb ((1 <=? instances) && (instances <=? 6))
    || ((instances =? 6) && (filled_columns >? 10))
  /\ exits (result p instances filled_columns)
     = detected_error (execute p instances filled_columns)
  /\ existsb is_hardware (trace p instances filled_columns)
     = negb (detected_error (execute p instances filled_columns)).
Proof.
  unfold result, trace.
  assert (V : forall n, 1 <= n <= 6 -> (1 <=? n) && (n <=? 6) = true).
  { intros n Hn. apply andb_true_iff; split; apply Z.leb_le; lia. }
  assert (L : forall es n,
             existsb is_hardware (log (ended p instances es n)) = true).
  { intros es n. unfold ended. cbn [log]. rewrite existsb_app. cbn.
    now rewrite orb_true_r. }
  destruct (execute_cases p instances filled_columns)
    as [N6 F E|I E|H G _ E|pl pls N1 F P E|pl pls N25 F P E]; rewrite E;
    cbn [fst snd].
  - subst instances.
    replace (filled_columns >? 10) with true by (symmetry; apply Z.gtb_lt; lia).
    repeat split.
  - replace ((1 <=? instances) && (instances <=? 6)) with false.
    + repeat split.
    + symmetry. apply andb_false_iff.
      destruct I; [left; apply Z.leb_gt|right; apply Z.leb_gt]; lia.
  - rewrite G, V by lia. unfold detected_error. cbn [fst snd negb orb exits].
    rewrite L. repeat split.
  - subst instances. unfold detected_error. cbn [fst snd negb orb exits].
    rewrite L. repeat split.
  - rewrite V by lia.
    replace (instances =? 6) with false by (symmetry; apply Z.eqb_neq; lia).
    unfold detected_error. cbn [fst snd negb orb andb exits].
    rewrite L. repeat split.
Qed.

(** C3 as stated fails: with 6 instances and 11 filled columns the script
    stops on a detected error before any call on the protocol API. *)
Lemma too_many_columns_detected :
  1 <= 6 <= 6
  /\ detected_error (execute default_params 6 11) = true
  /\ filter is_hardware (trace default_params 6 11) = []
  /\ trace default_params 6 11 = [Print too_many_columns_message].
Proof. repeat split; try lia; discriminate. Qed.

(** ** At most one filled column *)

(** C10: with 1 to 6 instances and at most one filled column (0 and
    negative values included) the script returns normally and every
    instance contributes [pick_up_tip], the mix of the first well of column
    0 and [drop_tip], and nothing else: no aspirate, no dispense. *)
Theorem mix_only_when_no_column_to_fill (p : params) (instances filled_columns : Z) :
  1 <= instances <= 6 ->
  filled_columns <= 1 ->
  result p instances filled_columns = Normal tt
  /\ commands (trace p instances filled_columns)
     = flat_map (mix_only_events p) (dilutionplate_10X (layout p instances))
  /\ Z.of_nat (List.length (dilutionplate_10X (layout p instances))) = instances
  /\ filter is_aspirate (trace p instances filled_columns) = []
  /\ filter is_dispense (trace p instances filled_columns) = [].
Proof.
  intros H F.
  assert (G : (instances =? 6) && (filled_columns >? 10) = false).
  { apply andb_false_iff. right. rewrite Z.gtb_ltb. apply Z.ltb_ge. lia. }
  pose proof (execute_valid p instances filled_columns H G ltac:(lia)) as X.
  assert (D : forall pl, dilute_events p filled_columns pl = mix_only_events p pl).
  { intros pl. unfold dilute_events. rewrite py_range_nonpos by lia. reflexivity. }
  assert (C : commands (trace p instances filled_columns)
              = flat_map (mix_only_events p)
                         (dilutionplate_10X (layout p instances))).
  { rewrite commands_trace by lia. rewrite X. cbn [snd ended dilutionplate_10X].
    apply flat_map_ext, D. }
  pose proof (layout_log_loads p instances H) as L.
  split; [|split; [|split; [|split]]].
  - unfold result. now rewrite X.
  - exact C.
  - apply (select_layout_valid p instances H).
  - rewrite (trace_ended p instances filled_columns H G), C.
    rewrite filter_app. cbn [filter is_aspirate].
    rewrite (filter_none is_aspirate (log _)).
    + apply filter_none, Forall_flat_map_intro. intros pl. repeat constructor.
    + eapply Forall_impl; [|exact L]. now intros [].
  - rewrite (trace_ended p instances filled_columns H G), C.
    rewrite filter_app. cbn [filter is_dispense].
    rewrite (filter_none is_dispense (log _)).
    + apply filter_none, Forall_flat_map_intro. intros pl. repeat constructor.
    + eapply Forall_impl; [|exact L]. now intros [].
Qed.

Lemma mix_only_when_no_column_to_fill_witness :
  1 <= 2 <= 6 /\ -3 <= 1
  /\ result default_params 2 (-3) = Normal tt
  /\ commands (trace default_params 2 (-3))
     = flat_map (mix_only_events default_params)
                (dilutionplate_10X (layout default_params 2))
  /\ Z.of_nat (List.length (dilutionplate_10X (layout default_params 2))) = 2
  /\ filter is_aspirate (trace default_params 2 (-3)) = []
  /\ filter is_dispense (trace default_params 2 (-3)) = [].
Proof.
  split; [lia|]. split; [lia|].
  apply (mix_only_when_no_column_to_fill default_params 2 (-3)); lia.
Defined.

(** ** Aspirate, then dispense *)

Lemma aspirate_then_dispense_nil : aspirate_then_dispense [].
Proof. intros [|e pre] v src post H; discriminate. Qed.

Lemma aspirate_then_dispense_other (e : event) (l : list event) :
  is_aspirate e = false ->
  aspirate_then_dispense l -> aspirate_then_dispense (e :: l).
Proof.
  intros He Hl [|e' pre] v src post H; cbn in H.
  - injection H as -> _. discriminate.
  - injection H as _ H. now apply (Hl pre).
Qed.

Lemma aspirate_then_dispense_pair (v : Z) (pl : labware) (j : Z) (l : list event) :
  aspirate_then_dispense l ->
  aspirate_then_dispense
    (Aspirate v (Well pl j 0) :: Dispense v (Well pl (j + 1) 0) :: l).
Proof.
  intros Hl [|e' pre] v' src post H; cbn in H.
  - injection H as <- <- <-. now exists l.
  - injection H as _ H.
    apply (aspirate_then_dispense_other (Dispense v (Well pl (j + 1) 0)) l
             eq_refl Hl pre). exact H.
Qed.

Lemma aspirate_then_dispense_dilutions (p : params) (f : Z) (pls : list labware) :
  aspirate_then_dispense (flat_map (dilute_events p f) pls).
Proof.
  induction pls as [|pl pls IH]; [apply aspirate_then_dispense_nil|].
  cbn [flat_map]. set (rest := flat_map (dilute_events p f) pls) in *.
  unfold dilute_events. rewrite <- app_assoc.
  cbn [app]. do 3 (apply aspirate_then_dispense_other; [reflexivity|]).
  induction (py_range (f - 1)) as [|j js IHj]; [exact IH|].
  cbn [flat_map transfer_events app].
  apply aspirate_then_dispense_other; [reflexivity|].
  apply aspirate_then_dispense_pair.
  do 2 (apply aspirate_then_dispense_other; [reflexivity|]).
  exact IHj.
Qed.

(** Unless the run stops after an aspirate, its commands are whole
    dilutions. *)
Lemma commands_whole (p : params) (instances filled_columns : Z) :
  ~ (2 <= instances <= 5 /\ 12 < filled_columns) ->
  exists (f : Z) (pls : list labware),
    commands (trace p instances filled_columns)
    = flat_map (dilute_events p f) pls.
Proof.
  intros C. unfold trace.
  destruct (execute_cases p instances filled_columns)
    as [_ _ E|_ E|H _ _ E|pl pls N1 F P E|pl pls N25 F P E]; try tauto;
    rewrite E; cbn [snd].
  - now exists 0, [].
  - now exists 0, [].
  - exists filled_columns, (dilutionplate_10X (layout p instances)).
    apply commands_ended; [exact H|].
    apply Forall_flat_map_intro. intros pl. apply dilute_events_commands.
  - exists 12, [pl].
    rewrite commands_ended by (try lia; apply cut_short_events_commands).
    rewrite cut_short_before_pick_up. cbn [flat_map]. now rewrite app_nil_r.
Qed.

(** The commands of a run stopped on [columns()[12]] end with the aspirate
    from column 11. *)
Lemma commands_cut_after_aspirate (p : params) (instances filled_columns : Z) :
  2 <= instances <= 5 -> 12 < filled_columns ->
  result p instances filled_columns = Raised IndexError
  /\ exists (before : list event) (pl : labware),
       commands (trace p instances filled_columns)
       = before ++ [Aspirate (dilution_volume p) (Well pl 11 0)].
Proof.
  intros N25 F. unfold result, trace.
  destruct (execute_cases p instances filled_columns)
    as [N6 _ _|I _|_ _ F12 _|pl pls N1 _ _ _|pl pls _ _ P E]; try lia.
  rewrite E. cbn [fst snd]. split; [reflexivity|].
  rewrite commands_ended by (try lia; apply cut_short_events_commands).
  unfold cut_short_events.
  exists (mix_only_events p pl
          ++ flat_map (transfer_events p pl) (py_range 11) ++ [PickUpTip]), pl.
  rewrite <- !app_assoc. reflexivity.
Qed.

(** C8, as the script has it: in the command sequence of every run an
    aspirate is from a first well, and right after it comes the dispense
    of the same volume into the first well of the next column of the same
    plate, with no [pick_up_tip] and no other command between the two.
    The one exception is the last command of a run with 2 to 5 instances
    and more than 12 filled columns: the aspirate from column 11, after
    which the script stops on [IndexError]. *)
Theorem aspirate_followed_by_dispense
  (p : params) (instances filled_columns : Z)
  (pre : list event) (v : Z) (src : well) (post : list event) :
  commands (trace p instances filled_columns) = pre ++ Aspirate v src :: post ->
  row src = 0
  /\ ((exists post' : list event,
         post = Dispense v (Well (plate src) (column src + 1) 0) :: post')
      \/ (post = [] /\ column src = 11
          /\ 2 <= instances <= 5 /\ 12 < filled_columns
          /\ result p instances filled_columns = Raised IndexError)).
Proof.
  intros H.
  destruct (commands_prefix p instances filled_columns) as [rest R].
  rewrite H, <- app_assoc in R. cbn [app] in R. symmetry in R.
  destruct (aspirate_then_dispense_dilutions p filled_columns _ _ _ _ _ R)
    as [post' [Hrow Hpost]].
  split; [exact Hrow|].
  destruct post as [|e post0].
  - right.
    assert (C : 2 <= instances <= 5 /\ 12 < filled_columns).
    { destruct (Z_le_gt_dec 2 instances) as [A|A];
        [destruct (Z_le_gt_dec instances 5) as [B|B];
         [destruct (Z_le_gt_dec filled_columns 12) as [D|D]; [|lia]|]|].
      all: exfalso.
      all: destruct (commands_whole p instances filled_columns ltac:(lia))
             as [f [pls W]].
      all: rewrite H in W; symmetry in W.
      all: destruct (aspirate_then_dispense_dilutions p f _ _ _ _ _ W)
             as [x [_ Hx]]; discriminate. }
    destruct C as [N25 F].
    destruct (commands_cut_after_aspirate p instances filled_columns N25 F)
      as [Hres [before [pl Hc]]].
    rewrite H in Hc. apply app_inj_tail in Hc. destruct Hc as [_ Hc].
    injection Hc as _ ->. repeat split; trivial; lia.
  - left. cbn [app] in Hpost. injection Hpost as -> Hpost.
    now exists post0.
Qed.

Lemma aspirate_followed_by_dispense_witness :
  row (Well (Labware (plate_type default_params) 9) 0 0) = 0
  /\ ((exists post' : list event,
         [ Dispense 20 (Well (Labware (plate_type default_params) 9) 1 0);
           Mix 15 20 None (Some (1 # 1)%Q); DropTip ]
         = Dispense 20 (Well (plate (Well (Labware (plate_type default_params) 9) 0 0))
                             (column (Well (Labware (plate_type default_params) 9) 0 0) + 1) 0)
           :: post')
      \/ ([ Dispense 20 (Well (Labware (plate_type default_params) 9) 1 0);
            Mix 15 20 None (Some (1 # 1)%Q); DropTip ] = []
          /\ column (Well (Labware (plate_type default_params) 9) 0 0) = 11
          /\ 2 <= 1 <= 5 /\ 12 < 2
          /\ result default_params 1 2 = Raised IndexError)).
Proof.
  apply (aspirate_followed_by_dispense default_params 1 2
           [ PickUpTip;
             Mix 15 20 (Some (Well (Labware (plate_type default_params) 9) 0 0)) None;
             DropTip; PickUpTip ]
           20 (Well (Labware (plate_type default_params) 9) 0 0)).
  reflexivity.
Defined.

(** C8 as stated fails: with 2 instances and 13 filled columns the last
    command is the aspirate from column 11 of the first plate, and no
    dispense follows it. *)
Lemma last_aspirate_without_dispense :
  commands (trace default_params 2 13)
  = removelast (commands (trace default_params 2 13))
    ++ Aspirate 20 (Well (Labware (plate_type default_params) 11) 11 0) :: []
  /\ result default_params 2 13 = Raised IndexError
  /\ count is_aspirate (commands (trace default_params 2 13)) = 12%nat
  /\ count is_dispense (commands (trace default_params 2 13)) = 11%nat.
Proof. repeat split; vm_compute; reflexivity. Qed.

(** ** The mix rate *)











(** ** The layout *)

(** C1, as the script has it: for 1 to 5 instances the selection loads as
    many plates and as many tipracks as there are instances; for 6 it loads
    6 plates and 5 tipracks.  Every resource is loaded by one
    [load_labware] call of its type, and no slot is loaded twice. *)
Theorem layout_resources (p : params) (instances : Z) :
  1 <= instances <= 6 ->
  fst (select_layout p instances initial_world) = Normal tt
  /\ Z.of_nat (List.length (dilutionplate_10X (layout p instances))) = instances
  /\ Z.of_nat (List.length (tiprack_10X (layout p instances))) = Z.min instances 5
  /\ Forall (fun l => load_name l = plate_type p) (dilutionplate_10X (layout p instances))
  /\ Forall (fun l => load_name l = tiprack_type p) (tiprack_10X (layout p instances))
  /\ Z.of_nat (List.length (loaded_slots (log (layout p instances))))
     = instances + Z.min instances 5
  /\ NoDup (loaded_slots (log (layout p instances)))
  /\ NoDup (plate_slots p instances ++ tiprack_slots p instances)
  /\ incl (plate_slots p instances ++ tiprack_slots p instances)
          (loaded_slots (log (layout p instances))).
Proof.
  intros H.
  destruct (valid_cases instances H) as [E|[E|[E|[E|[E|E]]]]]; subst instances;
    (split; [reflexivity|]); (split; [reflexivity|]); (split; [reflexivity|]);
    (split; [repeat constructor|]); (split; [repeat constructor|]);
    (split; [reflexivity|]); (split; [distinct_slots|]);
    (split; [distinct_slots|]);
    intros s Hs; cbn in Hs |- *; intuition.
Qed.

Lemma layout_resources_witness :
  1 <= 6 <= 6
  /\ fst (select_layout default_params 6 initial_world) = Normal tt
  /\ Z.of_nat (List.length (dilutionplate_10X (layout default_params 6))) = 6
  /\ Z.of_nat (List.length (tiprack_10X (layout default_params 6))) = Z.min 6 5
  /\ Forall (fun l => load_name l = plate_type default_params)
            (dilutionplate_10X (layout default_params 6))
  /\ Forall (fun l => load_name l = tiprack_type default_params)
            (tiprack_10X (layout default_params 6))
  /\ Z.of_nat (List.length (loaded_slots (log (layout default_params 6))))
     = 6 + Z.min 6 5
  /\ NoDup (loaded_slots (log (layout default_params 6)))
  /\ NoDup (plate_slots default_params 6 ++ tiprack_slots default_params 6)
  /\ incl (plate_slots default_params 6 ++ tiprack_slots default_params 6)
          (loaded_slots (log (layout default_params 6))).
Proof.
  split; [lia|]. apply (layout_resources default_params 6). lia.
Defined.

(** C1 as stated fails: for 6 instances the selection loads 6 plates and
    5 tipracks, not 6. *)
Lemma six_instances_five_tipracks :
  1 <= 6 <= 6
  /\ List.length (dilutionplate_10X (layout default_params 6)) = 6%nat
  /\ List.length (tiprack_10X (layout default_params 6)) <> 6%nat
  /\ List.length (bindings default_params 6) <> 6%nat.
Proof. repeat split; try lia; discriminate. Qed.

(** C5, as the script has it: for 2 to 6 instances the layout is the layout
    for one instance less with the new labware put in front.  The plates
    for one instance less are the plates without the first; the tipracks
    for one instance less are the tipracks without the first, and for 6
    instances all five of them; the [load_labware] calls for one instance
    less are the last calls. *)
Theorem layout_nesting (p : params) (instances : Z) :
  2 <= instances <= 6 ->
  dilutionplate_10X (layout p (instances - 1))
  = tl (dilutionplate_10X (layout p instances))
  /\ tiprack_10X (layout p (instances - 1))
     = (if instances =? 6 then tiprack_10X (layout p instances)
        else tl (tiprack_10X (layout p instances)))
  /\ exists new : list event,
       new <> []
       /\ log (layout p instances) = new ++ log (layout p (instances - 1)).
Proof.
  intros H.
  assert (E : instances = 2 \/ instances = 3 \/ instances = 4
              \/ instances = 5 \/ instances = 6) by lia.
  split; [|split].
  - destruct E as [E|[E|[E|[E|E]]]]; subst instances; reflexivity.
  - destruct E as [E|[E|[E|[E|E]]]]; subst instances; reflexivity.
  - exists (firstn (if instances =? 6 then 1 else 2) (log (layout p instances))).
    destruct E as [E|[E|[E|[E|E]]]]; subst instances;
      (split; [discriminate|reflexivity]).
Qed.

Lemma layout_nesting_witness :
  2 <= 3 <= 6
  /\ dilutionplate_10X (layout default_params (3 - 1))
     = tl (dilutionplate_10X (layout default_params 3))
  /\ tiprack_10X (layout default_params (3 - 1))
     = (if 3 =? 6 then tiprack_10X (layout default_params 3)
        else tl (tiprack_10X (layout default_params 3)))
  /\ exists new : list event,
       new <> []
       /\ log (layout default_params 3) = new ++ log (layout default_params (3 - 1)).
Proof.
  split; [lia|]. apply (layout_nesting default_params 3). lia.
Defined.

(** C5 as stated fails: the first entry of the layout for 2 instances is
    the new pair, plate in slot 11 and tiprack in slot 10, not the pair of
    the layout for 1 instance, slots 9 and 8. *)
Lemma layout_prefix_differs :
  2 <= 2 <= 6
  /\ firstn (Z.to_nat (2 - 1)) (bindings default_params 2) = [(11, 10)]
  /\ bindings default_params (2 - 1) = [(9, 8)]
  /\ firstn (Z.to_nat (2 - 1)) (bindings default_params 2)
     <> bindings default_params (2 - 1).
Proof. repeat split; try lia; discriminate. Qed.


(** ** How a run ends, and what it prints *)

Lemma valid_instances_true (instances : Z) :
  1 <= instances <= 6 -> valid_instances instances = true.
Proof.
  intros H. unfold valid_instances.
  apply andb_true_iff. split; apply Z.leb_le; lia.
Qed.

Lemma valid_instances_false (instances : Z) :
  instances < 1 \/ 6 < instances -> valid_instances instances = false.
Proof.
  intros H. unfold valid_instances. apply andb_false_iff.
  destruct H; [left|right]; apply Z.leb_gt; lia.
Qed.

Lemma valid_instances_range (instances : Z) :
  valid_instances instances = true -> 1 <= instances <= 6.
Proof.
  unfold valid_instances. intros H. apply andb_true_iff in H.
  destruct H as [A B]. apply Z.leb_le in A. apply Z.leb_le in B. lia.
Qed.

Lemma too_many_columns_true (filled_columns : Z) :
  10 < filled_columns -> too_many_columns 6 filled_columns = true.
Proof.
  intros H. unfold too_many_columns. apply andb_true_iff.
  split; [reflexivity|apply Z.gtb_lt; lia].
Qed.

(** X1: how a run ends is decided by the two numbers.  The script leaves
    through [sys.exit()] for an instance count outside 1..6 and for 6
    instances with more than 10 filled columns.  Otherwise it runs to its
    end when at most 12 columns are filled, and with more it stops in its
    first dilution, at the transfer out of column 11: on [OutOfTipsError]
    with 1 instance, on the [IndexError] of [columns()[12]] with 2 to 5.
    The exit status is 1 for the two exceptions and 0 otherwise. *)
Theorem outcome_by_configuration (p : params) (instances filled_columns : Z) :
  result p instances filled_columns
  = (if negb (valid_instances instances)
        || too_many_columns instances filled_columns
     then SystemExit None
     else if filled_columns <=? 12 then Normal tt
     else if instances =? 1 then Raised OutOfTipsError
     else Raised IndexError)
  /\ exit_status (result p instances filled_columns)
     = (if valid_instances instances
           && negb (too_many_columns instances filled_columns)
           && (12 <? filled_columns)
        then 1 else 0).
Proof.
  unfold result.
  destruct (execute_cases p instances filled_columns)
    as [N6 F E|I E|H G F12 E|pl pls N1 F P E|pl pls N25 F P E]; rewrite E;
    cbn [fst exit_status].
  - subst instances. rewrite (too_many_columns_true _ F).
    rewrite orb_true_r. cbn [negb andb]. rewrite andb_false_r. split; reflexivity.
  - rewrite (valid_instances_false _ I). split; reflexivity.
  - rewrite (valid_instances_true _ H). unfold too_many_columns. rewrite G.
    cbn [negb orb andb].
    replace (filled_columns <=? 12) with true by (symmetry; apply Z.leb_le; lia).
    replace (12 <? filled_columns) with false by (symmetry; apply Z.ltb_ge; lia).
    split; reflexivity.
  - subst instances. cbn [valid_instances too_many_columns Z.leb Z.eqb
                            Z.compare Pos.compare Pos.compare_cont Pos.eqb
                            negb orb andb].
    replace (filled_columns <=? 12) with false by (symmetry; apply Z.leb_gt; lia).
    replace (12 <? filled_columns) with true by (symmetry; apply Z.ltb_lt; lia).
    split; reflexivity.
  - rewrite (valid_instances_true instances) by lia. unfold too_many_columns.
    replace (instances =? 6) with false by (symmetry; apply Z.eqb_neq; lia).
    replace (instances =? 1) with false by (symmetry; apply Z.eqb_neq; lia).
    cbn [negb orb andb].
    replace (filled_columns <=? 12) with false by (symmetry; apply Z.leb_gt; lia).
    replace (12 <? filled_columns) with true by (symmetry; apply Z.ltb_lt; lia).
    split; reflexivity.
Qed.

Lemma commands_are_commands (l : list event) :
  Forall (fun e => is_command e = true) (commands l).
Proof.
  apply Forall_forall. intros e He. unfold commands in He.
  apply filter_In in He. tauto.
Qed.

(** X2: a run prints at most one diagnostic, and which one is decided by
    the module-level check first: the too-many-columns message for 6
    instances and more than 10 columns, the instances message for a count
    outside 1..6, nothing otherwise.  A run that prints makes no call on
    the protocol API, and a run that does not print makes some. *)
Theorem diagnostics (p : params) (instances filled_columns : Z) :
  filter is_print (trace p instances filled_columns)
  = (if too_many_columns instances filled_columns
     then [Print too_many_columns_message]
     else if valid_instances instances then []
     else [Print invalid_instances_message])
  /\ existsb is_print (trace p instances filled_columns)
     = negb (existsb is_hardware (trace p instances filled_columns)).
Proof.
  destruct (Z_lt_le_dec instances 1) as [Lo|Lo];
    [|destruct (Z_lt_le_dec 6 instances) as [Hi|Hi]].
  1,2: unfold trace; rewrite execute_invalid by lia;
       rewrite valid_instances_false by lia;
       replace (too_many_columns instances filled_columns) with false
         by (symmetry; unfold too_many_columns; apply andb_false_iff; left;
             apply Z.eqb_neq; lia);
       split; reflexivity.
  assert (V : 1 <= instances <= 6) by lia.
  rewrite (valid_instances_true _ V).
  destruct (too_many_columns instances filled_columns) eqn:G.
  - unfold too_many_columns in G. apply andb_true_iff in G.
    destruct G as [E F]. apply Z.eqb_eq in E. apply Z.gtb_lt in F.
    subst instances. unfold trace. rewrite execute_too_many_columns by lia.
    split; reflexivity.
  - rewrite (trace_ended p instances filled_columns V G).
    pose proof (layout_log_loads p instances V) as L.
    pose proof (commands_are_commands (trace p instances filled_columns)) as C.
    split.
    + rewrite filter_app. cbn [filter is_print].
      rewrite (filter_none is_print (log _)).
      * apply filter_none. eapply Forall_impl; [|exact C]. now intros [].
      * eapply Forall_impl; [|exact L]. now intros [].
    + rewrite !existsb_app. cbn [existsb is_hardware is_print].
      rewrite orb_true_r. cbn [negb orb].
      apply orb_false_iff. split.
      * apply not_true_is_false. intros A. apply existsb_exists in A.
        destruct A as [e [Ie Pe]]. rewrite Forall_forall in L.
        specialize (L e Ie). now destruct e.
      * apply not_true_is_false. intros A. apply existsb_exists in A.
        destruct A as [e [Ie Pe]]. rewrite Forall_forall in C.
        specialize (C e Ie). now destruct e.
Qed.

(** ** The shape of a run that is not stopped *)

(** X3: a run with at most 12 filled columns that is not stopped logs, in
    this order, the [load_labware] calls of the layout, one
    [load_instrument] on the right mount with all the tipracks of the
    layout in registration order, and the pipette commands: the dilution
    of each plate of the layout, in list order. *)
Theorem run_phases (p : params) (instances filled_columns : Z) :
  valid_instances instances = true ->
  too_many_columns instances filled_columns = false ->
  filled_columns <= 12 ->
  trace p instances filled_columns
  = log (layout p instances)
    ++ LoadInstrument (pipette_type p) "right" (tiprack_10X (layout p instances))
    :: commands (trace p instances filled_columns)
  /\ Forall (fun e => is_load_labware e = true) (log (layout p instances))
  /\ commands (trace p instances filled_columns)
     = flat_map (dilute_events p filled_columns)
                (dilutionplate_10X (layout p instances))
  /\ count is_load_instrument (trace p instances filled_columns) = 1%nat.
Proof.
  intros V G F. apply valid_instances_range in V.
  pose proof (layout_log_loads p instances V) as L.
  assert (C : commands (trace p instances filled_columns)
              = flat_map (dilute_events p filled_columns)
                         (dilutionplate_10X (layout p instances))).
  { rewrite commands_trace by exact F.
    now rewrite (execute_valid p instances filled_columns V G F). }
  split; [apply trace_ended; trivial|]. split; [exact L|]. split; [exact C|].
  rewrite (trace_ended p instances filled_columns V G), C.
  unfold count. rewrite filter_app. cbn [filter is_load_instrument].
  rewrite (filter_none is_load_instrument (log _)).
  - rewrite filter_none; [reflexivity|].
    apply Forall_flat_map_intro. intros pl.
    eapply Forall_impl; [|apply dilute_events_commands]. now intros [].
  - eapply Forall_impl; [|exact L]. now intros [].
Qed.

Lemma run_phases_witness :
  valid_instances 2 = true /\ too_many_columns 2 3 = false /\ 3 <= 12
  /\ trace default_params 2 3
     = log (layout default_params 2)
       ++ LoadInstrument (pipette_type default_params) "right"
            (tiprack_10X (layout default_params 2))
       :: commands (trace default_params 2 3)
  /\ Forall (fun e => is_load_labware e = true) (log (layout default_params 2))
  /\ commands (trace default_params 2 3)
     = flat_map (dilute_events default_params 3)
                (dilutionplate_10X (layout default_params 2))
  /\ count is_load_instrument (trace default_params 2 3) = 1%nat.
Proof.
  split; [reflexivity|]. split; [reflexivity|]. split; [lia|].
  apply (run_phases default_params 2 3); [reflexivity|reflexivity|lia].
Defined.

(** ** Counting calls *)

Lemma count_app (test : event -> bool) (a b : list event) :
  count test (a ++ b) = (count test a + count test b)%nat.
Proof. unfold count. now rewrite filter_app, length_app. Qed.

Lemma count_flat_map {A} (test : event -> bool) (g : A -> list event)
  (k : nat) (l : list A) :
  (forall x, count test (g x) = k) ->
  count test (flat_map g l) = (List.length l * k)%nat.
Proof.
  intros H. induction l as [|x l IH]; [reflexivity|].
  cbn [flat_map List.length]. rewrite count_app, H, IH. reflexivity.
Qed.

(** A test that only pipette commands pass counts the same on a log and on
    its commands. *)
Lemma count_commands (test : event -> bool) (l : list event) :
  (forall e, test e = true -> is_command e = true) ->
  count test l = count test (commands l).
Proof.
  intros H. unfold count, commands. f_equal.
  induction l as [|e l IH]; [reflexivity|]. cbn [filter].
  destruct (is_command e) eqn:C.
  - cbn [filter]. now rewrite IH.
  - destruct (test e) eqn:T; [|exact IH].
    apply H in T. congruence.
Qed.

Lemma count_dilutions (p : params) (f : Z) (test : event -> bool) (a b : nat)
  (pls : list labware) :
  (forall pl, count test (mix_only_events p pl) = a) ->
  (forall pl j, count test (transfer_events p pl j) = b) ->
  count test (flat_map (dilute_events p f) pls)
  = (List.length pls * (a + Z.to_nat (f - 1) * b))%nat.
Proof.
  intros Ha Hb. apply count_flat_map. intros pl.
  unfold dilute_events. rewrite count_app.
  change (count test (mix_only_events p pl)
          + count test (flat_map (transfer_events p pl) (py_range (f - 1)))
          = a + Z.to_nat (f - 1) * b)%nat.
  rewrite Ha, (count_flat_map test _ b) by (intros j; apply Hb).
  unfold py_range. now rewrite length_map, length_seq.
Qed.

Lemma count_trace (p : params) (instances filled_columns : Z)
  (test : event -> bool) (a b : nat) :
  1 <= instances <= 6 ->
  (instances =? 6) && (filled_columns >? 10) = false ->
  filled_columns <= 12 ->
  (forall e, test e = true -> is_command e = true) ->
  (forall pl, count test (mix_only_events p pl) = a) ->
  (forall pl j, count test (transfer_events p pl j) = b) ->
  Z.of_nat (count test (trace p instances filled_columns))
  = instances * (Z.of_nat a + Z.max 0 (filled_columns - 1) * Z.of_nat b).
Proof.
  intros V G F Hc Ha Hb.
  rewrite (count_commands test _ Hc), commands_trace by exact F.
  rewrite (execute_valid p instances filled_columns V G F).
  cbn [snd ended dilutionplate_10X].
  rewrite (count_dilutions p filled_columns test a b _ Ha Hb).
  destruct (select_layout_valid p instances V) as [_ Hlen].
  rewrite Nat2Z.inj_mul, Hlen, Nat2Z.inj_add, Nat2Z.inj_mul.
  replace (Z.of_nat (Z.to_nat (filled_columns - 1)))
    with (Z.max 0 (filled_columns - 1)) by lia.
  reflexivity.
Qed.

(** X4: a run with at most 12 filled columns that is not stopped makes,
    for each instance, one pick-up, one mix and one drop plus one of each
    per column transfer, and one aspirate and one dispense per column
    transfer; there are [filled_columns - 1] column transfers, none when
    that is negative.  So [instances * max(1, filled_columns)] tips are
    used. *)
Theorem call_counts (p : params) (instances filled_columns : Z) :
  valid_instances instances = true ->
  too_many_columns instances filled_columns = false ->
  filled_columns <= 12 ->
  Z.of_nat (count is_pick_up_tip (trace p instances filled_columns))
  = instances * Z.max 1 filled_columns
  /\ Z.of_nat (count is_drop_tip (trace p instances filled_columns))
     = instances * Z.max 1 filled_columns
  /\ Z.of_nat (count is_aspirate (trace p instances filled_columns))
     = instances * Z.max 0 (filled_columns - 1)
  /\ Z.of_nat (count is_dispense (trace p instances filled_columns))
     = instances * Z.max 0 (filled_columns - 1)
  /\ Z.of_nat (count is_command (trace p instances filled_columns))
     = instances * (3 + 5 * Z.max 0 (filled_columns - 1)).
Proof.
  intros V G F. apply valid_instances_range in V.
  assert (M : Z.max 1 filled_columns = 1 + Z.max 0 (filled_columns - 1)) by lia.
  rewrite M.
  split; [|split; [|split; [|split]]].
  - rewrite (count_trace p instances filled_columns is_pick_up_tip 1 1 V G F);
      [f_equal; lia|now intros []|reflexivity|reflexivity].
  - rewrite (count_trace p instances filled_columns is_drop_tip 1 1 V G F);
      [f_equal; lia|now intros []|reflexivity|reflexivity].
  - rewrite (count_trace p instances filled_columns is_aspirate 0 1 V G F);
      [f_equal; lia|now intros []|reflexivity|reflexivity].
  - rewrite (count_trace p instances filled_columns is_dispense 0 1 V G F);
      [f_equal; lia|now intros []|reflexivity|reflexivity].
  - rewrite (count_trace p instances filled_columns is_command 3 5 V G F);
      [f_equal; lia|now intros []|reflexivity|reflexivity].
Qed.

Lemma call_counts_witness :
  valid_instances 6 = true /\ too_many_columns 6 10 = false /\ 10 <= 12
  /\ Z.of_nat (count is_pick_up_tip (trace default_params 6 10)) = 6 * Z.max 1 10
  /\ Z.of_nat (count is_drop_tip (trace default_params 6 10)) = 6 * Z.max 1 10
  /\ Z.of_nat (count is_aspirate (trace default_params 6 10)) = 6 * Z.max 0 (10 - 1)
  /\ Z.of_nat (count is_dispense (trace default_params 6 10)) = 6 * Z.max 0 (10 - 1)
  /\ Z.of_nat (count is_command (trace default_params 6 10))
     = 6 * (3 + 5 * Z.max 0 (10 - 1)).
Proof.
  split; [reflexivity|]. split; [reflexivity|]. split; [lia|].
  apply (call_counts default_params 6 10); [reflexivity|reflexivity|lia].
Defined.

(** X5: the module-level check is the tip budget.  With 1 to 6 instances
    and 1 to 12 filled columns, the script runs to its end exactly when the
    pick-ups it needs, [instances * filled_columns], are no more than 12
    for each tiprack of the layout; and then it makes that many. *)
Theorem tip_budget (p : params) (instances filled_columns : Z) :
  valid_instances instances = true ->
  1 <= filled_columns <= 12 ->
  completes (result p instances filled_columns)
  = (instances * filled_columns
     <=? pickups_per_tiprack
         * Z.of_nat (List.length (tiprack_10X (layout p instances))))
  /\ Z.of_nat (count is_pick_up_tip (trace p instances filled_columns))
     = (if completes (result p instances filled_columns)
        then instances * filled_columns else 0).
Proof.
  intros V F. apply valid_instances_range in V.
  destruct (layout_tips p instances V) as [_ T].
  rewrite T. change pickups_per_tiprack with 12.
  unfold result, trace.
  destruct (execute_cases p instances filled_columns)
    as [N6 F' X|I X|H G F12 X|pl pls N1 F' P X|pl pls N25 F' P X]; try lia.
  - rewrite X. cbn [fst snd completes log]. subst instances. split.
    + symmetry. apply Z.leb_gt. lia.
    + reflexivity.
  - pose proof (count_trace p instances filled_columns is_pick_up_tip 1 1 V G F12) as C.
    unfold trace in C. rewrite C;
      [|now intros []|reflexivity|reflexivity].
    rewrite X. cbn [fst completes]. split.
    + symmetry. apply Z.leb_le.
      apply andb_false_iff in G. destruct G as [G|G].
      * apply Z.eqb_neq in G. nia.
      * rewrite Z.gtb_ltb in G. apply Z.ltb_ge in G. nia.
    + f_equal. lia.
Qed.

Lemma tip_budget_witness :
  valid_instances 6 = true /\ 1 <= 11 <= 12
  /\ completes (result default_params 6 11)
     = (6 * 11 <=? pickups_per_tiprack
                   * Z.of_nat (List.length (tiprack_10X (layout default_params 6))))
  /\ Z.of_nat (count is_pick_up_tip (trace default_params 6 11))
     = (if completes (result default_params 6 11) then 6 * 11 else 0).
Proof.
  split; [reflexivity|]. split; [lia|].
  apply (tip_budget default_params 6 11); [reflexivity|lia].
Defined.

(** ** The deck *)

(** X6: the layout is the deck diagram of the docstring.  For 1 to 6
    instances the plates registered are [P instances], ..., [P 1] and the
    tipracks [T k], ..., [T 1] with [k] the smaller of the count and 5, in
    this order and in the slots the diagram gives them; every slot loaded
    is one of 1..11, so nothing is put in slot 12, the trash. *)
Theorem layout_follows_diagram (p : params) (instances : Z) :
  valid_instances instances = true ->
  plate_slots p instances = map diagram_plate (countdown instances)
  /\ tiprack_slots p instances
     = map diagram_tiprack (countdown (Z.min instances 5))
  /\ Forall (fun s => 1 <= s <= 11) (loaded_slots (log (layout p instances))).
Proof.
  intros V. apply valid_instances_range in V.
  destruct (valid_cases instances V) as [E|[E|[E|[E|[E|E]]]]]; subst instances;
    (split; [reflexivity|]); (split; [reflexivity|]);
    repeat (constructor; [lia|]); constructor.
Qed.

Lemma layout_follows_diagram_witness :
  valid_instances 4 = true
  /\ plate_slots default_params 4 = map diagram_plate (countdown 4)
  /\ tiprack_slots default_params 4
     = map diagram_tiprack (countdown (Z.min 4 5))
  /\ Forall (fun s => 1 <= s <= 11)
            (loaded_slots (log (layout default_params 4))).
Proof.
  split; [reflexivity|].
  apply (layout_follows_diagram default_params 4). reflexivity.
Defined.


(** ** The wells a run touches *)

Lemma transfers_in_bounds (p : params) (f : Z) (plates : list labware)
  (pl : labware) (js : list Z) :
  In pl plates ->
  (forall j, In j js -> 0 <= j <= f - 2 /\ j + 1 < plate_columns) ->
  Forall (well_in_bounds plates f) (flat_map (transfer_events p pl) js).
Proof.
  intros Ipl J. apply Forall_forall. intros e He. apply in_flat_map in He.
  destruct He as [j [Hj He]]. apply J in Hj. cbn in He.
  destruct He as [<-|[<-|[<-|[<-|[<-|[]]]]]]; cbn; try exact I;
    (split; [exact Ipl|split; [reflexivity|lia]]).
Qed.

Lemma dilute_in_bounds (p : params) (f : Z) (plates : list labware)
  (pl : labware) :
  In pl plates -> f <= plate_columns ->
  Forall (well_in_bounds plates f) (dilute_events p f pl).
Proof.
  intros Ipl F. unfold dilute_events. apply Forall_app. split.
  - repeat constructor. exact Ipl.
  - apply transfers_in_bounds; [exact Ipl|].
    intros j Hj. apply py_range_bounds in Hj. lia.
Qed.

Lemma cut_short_in_bounds (p : params) (f : Z) (plates : list labware)
  (pl : labware) (b : bool) :
  In pl plates -> plate_columns < f ->
  Forall (well_in_bounds plates f) (cut_short_events p pl b).
Proof.
  intros Ipl F. unfold plate_columns in F.
  unfold cut_short_events. apply Forall_app. split.
  - repeat constructor. exact Ipl.
  - apply Forall_app. split.
    + apply transfers_in_bounds; [exact Ipl|].
      intros j Hj. apply py_range_bounds in Hj. unfold plate_columns. lia.
    + destruct b; repeat constructor; cbn; trivial;
        unfold plate_columns; lia.
Qed.

Lemma ended_in_bounds (p : params) (instances f : Z) (plates : list labware)
  (es : list event) (n : Z) :
  1 <= instances <= 6 ->
  Forall (well_in_bounds plates f) es ->
  Forall (well_in_bounds plates f) (log (ended p instances es n)).
Proof.
  intros H S. unfold ended. cbn [log]. apply Forall_app. split.
  - eapply Forall_impl; [|apply (layout_log_loads p instances H)].
    now intros [].
  - constructor; [exact I|exact S].
Qed.

(** X7: whatever the configuration, every well a call names is in row 0 of
    a plate the script has registered and inside the plate, in a column
    below 12; an aspirate is from a column in [0, filled_columns - 2], a
    dispense into a column in [1, filled_columns - 1], a mix with a well
    is on column 0. *)
Theorem wells_in_bounds (p : params) (instances filled_columns : Z) :
  Forall (well_in_bounds
            (dilutionplate_10X (snd (execute p instances filled_columns)))
            filled_columns)
         (trace p instances filled_columns).
Proof.
  unfold trace.
  destruct (execute_cases p instances filled_columns)
    as [N6 F E|I E|H G F12 E|pl pls N1 F P E|pl pls N25 F P E]; rewrite E;
    cbn [snd].
  - repeat constructor.
  - repeat constructor.
  - apply ended_in_bounds; [exact H|]. cbn [ended dilutionplate_10X].
    apply Forall_forall. intros e He. apply in_flat_map in He.
    destruct He as [pl [Hpl He]].
    pose proof (dilute_in_bounds p filled_columns _ pl Hpl
                  ltac:(unfold plate_columns; lia)) as D.
    rewrite Forall_forall in D. now apply D.
  - apply ended_in_bounds; [lia|]. cbn [ended dilutionplate_10X].
    apply cut_short_in_bounds; [rewrite P; now left|unfold plate_columns; lia].
  - apply ended_in_bounds; [lia|]. cbn [ended dilutionplate_10X].
    apply cut_short_in_bounds; [rewrite P; now left|unfold plate_columns; lia].
Qed.

(** ** The dilution chain *)

Lemma aspirates_prepared_nil (p : params) (history : list event) :
  aspirates_prepared p history [].
Proof. intros [|e pre] v src post H; discriminate. Qed.

Lemma aspirates_prepared_other (p : params) (history : list event)
  (e : event) (l : list event) :
  is_aspirate e = false ->
  aspirates_prepared p (history ++ [e]) l ->
  aspirates_prepared p history (e :: l).
Proof.
  intros He Hl [|e' pre] v src post H; cbn in H.
  - injection H as -> _. discriminate.
  - injection H as <- H. specialize (Hl pre v src post H).
    now rewrite <- app_assoc in Hl.
Qed.

Lemma aspirates_prepared_aspirate (p : params) (history : list event)
  (v : Z) (src : well) (l : list event) :
  prepared p history v src ->
  aspirates_prepared p (history ++ [Aspirate v src]) l ->
  aspirates_prepared p history (Aspirate v src :: l).
Proof.
  intros Hp Hl [|e' pre] v' src' post H; cbn in H.
  - injection H as <- <- _. now rewrite app_nil_r.
  - injection H as <- H. specialize (Hl pre v' src' post H).
    now rewrite <- app_assoc in Hl.
Qed.

(** The column transfers from column [a] on, given that column [a] is
    prepared. *)
Lemma aspirates_prepared_transfers (p : params) (pl : labware)
  (rest : list event) (n : nat) :
  forall (a : nat) (history : list event),
    prepared p history (dilution_volume p) (Well pl (Z.of_nat a) 0) ->
    (forall history', aspirates_prepared p (history ++ history') rest) ->
    aspirates_prepared p history
      (flat_map (transfer_events p pl) (map Z.of_nat (seq a n)) ++ rest).
Proof.
  induction n as [|n IH]; intros a history Hp Hrest.
  - cbn. specialize (Hrest []). now rewrite app_nil_r in Hrest.
  - cbn [seq map flat_map transfer_events app].
    apply aspirates_prepared_other; [reflexivity|].
    apply aspirates_prepared_aspirate.
    { destruct Hp as [P0 P1]. split; intros C.
      - apply in_or_app. left. now apply P0.
      - apply in_or_app. left. now apply P1. }
    do 3 (apply aspirates_prepared_other; [reflexivity|]).
    rewrite <- !app_assoc. cbn [app].
    apply IH.
    + split; intros C.
      * cbn [column] in C. exfalso. lia.
      * apply in_or_app. right.
        replace (Z.of_nat (S a)) with (Z.of_nat a + 1) by lia.
        right. right. now left.
    + intros history'. rewrite <- app_assoc. apply Hrest.
Qed.

Lemma aspirates_prepared_dilutions (p : params) (f : Z) (pls : list labware) :
  forall history : list event,
    aspirates_prepared p history (flat_map (dilute_events p f) pls).
Proof.
  induction pls as [|pl pls IH]; intros history;
    [apply aspirates_prepared_nil|].
  cbn [flat_map]. set (rest := flat_map (dilute_events p f) pls) in *.
  unfold dilute_events. rewrite <- app_assoc. cbn [app].
  do 3 (apply aspirates_prepared_other; [reflexivity|]).
  unfold py_range. apply aspirates_prepared_transfers.
  - split; intros C.
    + apply in_or_app. left. apply in_or_app. right. now left.
    + cbn in C. congruence.
  - intros history'. apply IH.
Qed.

(** X8: in every run a well is drawn from only after it was prepared: an
    aspirate from column 0 comes after the mix-only call on that well, and
    an aspirate from any other column comes after a dispense of the same
    volume into that very well. *)
Theorem aspirate_from_prepared_well
  (p : params) (instances filled_columns : Z)
  (pre : list event) (v : Z) (src : well) (post : list event) :
  commands (trace p instances filled_columns) = pre ++ Aspirate v src :: post ->
  (column src = 0 ->
   In (Mix (mix_repetitions p) (mix_volume p) (Some src) None) pre)
  /\ (column src <> 0 -> In (Dispense v src) pre).
Proof.
  intros H.
  destruct (commands_prefix p instances filled_columns) as [rest R].
  rewrite H, <- app_assoc in R. cbn [app] in R. symmetry in R.
  exact (aspirates_prepared_dilutions p filled_columns _ [] pre v src _ R).
Qed.

Lemma aspirate_from_prepared_well_witness :
  (column (Well (Labware (plate_type default_params) 9) 1 0) = 0 ->
   In (Mix (mix_repetitions default_params) (mix_volume default_params)
           (Some (Well (Labware (plate_type default_params) 9) 1 0)) None)
      (firstn 9 (commands (trace default_params 1 3))))
  /\ (column (Well (Labware (plate_type default_params) 9) 1 0) <> 0 ->
      In (Dispense 20 (Well (Labware (plate_type default_params) 9) 1 0))
         (firstn 9 (commands (trace default_params 1 3)))).
Proof.
  apply (aspirate_from_prepared_well default_params 1 3
           (firstn 9 (commands (trace default_params 1 3)))
           20 (Well (Labware (plate_type default_params) 9) 1 0)
           (skipn 10 (commands (trace default_params 1 3)))).
  reflexivity.
Defined.

(** ** No well twice *)

Lemma NoDup_map_injective {A B} (g : A -> B) (l : list A) :
  (forall x y, g x = g y -> x = y) -> NoDup l -> NoDup (map g l).
Proof.
  intros Hg Hl. induction Hl as [|x l Hx Hl IH]; cbn; constructor.
  - intros H. apply in_map_iff in H. destruct H as [y [E Hy]].
    apply Hg in E. now subst y.
  - exact IH.
Qed.

Lemma NoDup_append {A} (l l' : list A) :
  NoDup l -> NoDup l' -> (forall x, In x l -> ~ In x l') -> NoDup (l ++ l').
Proof.
  intros Hl Hl' D. induction Hl as [|x l Hx Hl IH]; [exact Hl'|].
  cbn. constructor.
  - intros H. apply in_app_or in H. destruct H as [H|H]; [now apply Hx|].
    apply (D x); [now left|exact H].
  - apply IH. intros y Hy. apply D. now right.
Qed.

Lemma NoDup_flat_map_disjoint {A B} (g : A -> list B) (l : list A) :
  NoDup l ->
  (forall x, NoDup (g x)) ->
  (forall x y z, In z (g x) -> In z (g y) -> x = y) ->
  NoDup (flat_map g l).
Proof.
  intros Hl Hg D. induction Hl as [|x l Hx Hl IH]; [constructor|].
  cbn. apply NoDup_append; [apply Hg|exact IH|].
  intros z Hz H. apply in_flat_map in H. destruct H as [y [Hy Hz']].
  assert (x = y) by (eapply D; eassumption). now subst y.
Qed.

Lemma NoDup_py_range (n : Z) : NoDup (py_range n).
Proof.
  unfold py_range. apply NoDup_map_injective; [|apply seq_NoDup].
  intros x y H. lia.
Qed.

Lemma aspirated_dilutions (p : params) (f : Z) (pls : list labware) :
  aspirated (flat_map (dilute_events p f) pls)
  = flat_map (fun pl => map (fun j => Well pl j 0) (py_range (f - 1))) pls.
Proof.
  unfold aspirated. rewrite flat_map_flat_map. apply flat_map_ext. intros pl.
  unfold dilute_events. rewrite flat_map_app. cbn [flat_map app].
  induction (py_range (f - 1)) as [|j js IH]; [reflexivity|].
  cbn [flat_map map transfer_events app]. now rewrite <- IH.
Qed.

Lemma dispensed_dilutions (p : params) (f : Z) (pls : list labware) :
  dispensed (flat_map (dilute_events p f) pls)
  = flat_map (fun pl => map (fun j => Well pl (j + 1) 0) (py_range (f - 1))) pls.
Proof.
  unfold dispensed. rewrite flat_map_flat_map. apply flat_map_ext. intros pl.
  unfold dilute_events. rewrite flat_map_app. cbn [flat_map app].
  induction (py_range (f - 1)) as [|j js IH]; [reflexivity|].
  cbn [flat_map map transfer_events app]. now rewrite <- IH.
Qed.

Lemma layout_plates_NoDup (p : params) (instances : Z) :
  1 <= instances <= 6 -> NoDup (dilutionplate_10X (layout p instances)).
Proof.
  intros H. apply (NoDup_map_inv slot).
  destruct (valid_cases instances H) as [E|[E|[E|[E|[E|E]]]]]; subst instances;
    distinct_slots.
Qed.

Lemma wells_NoDup (shift : Z) (f : Z) (pls : list labware) :
  NoDup pls ->
  NoDup (flat_map (fun pl => map (fun j => Well pl (j + shift) 0) (py_range (f - 1))) pls).
Proof.
  intros H. apply NoDup_flat_map_disjoint; [exact H| |].
  - intros pl. apply NoDup_map_injective; [|apply NoDup_py_range].
    intros x y E. injection E as E. lia.
  - intros x y z Hx Hy.
    apply in_map_iff in Hx. destruct Hx as [j [<- _]].
    apply in_map_iff in Hy. destruct Hy as [k [E _]].
    now injection E.
Qed.

Lemma aspirated_commands (l : list event) :
  aspirated l = aspirated (commands l) /\ dispensed l = dispensed (commands l).
Proof.
  unfold aspirated, dispensed, commands.
  induction l as [|e l [IHa IHd]]; [split; reflexivity|].
  destruct e; cbn; rewrite ?IHa, ?IHd; split; reflexivity.
Qed.

Lemma final_plates_NoDup (p : params) (instances filled_columns : Z) :
  NoDup (dilutionplate_10X (snd (execute p instances filled_columns))).
Proof.
  destruct (execute_cases p instances filled_columns)
    as [N6 F E|I E|H G F12 E|pl pls N1 F P E|pl pls N25 F P E]; rewrite E;
    cbn [snd ended dilutionplate_10X]; try constructor;
    apply layout_plates_NoDup; lia.
Qed.

(** X9: in every run no well is aspirated from twice and no well is
    dispensed into twice: each plate is diluted by one instance, and an
    instance visits each column once. *)
Theorem each_well_once (p : params) (instances filled_columns : Z) :
  NoDup (aspirated (trace p instances filled_columns))
  /\ NoDup (dispensed (trace p instances filled_columns)).
Proof.
  destruct (aspirated_commands (trace p instances filled_columns)) as [-> ->].
  destruct (commands_prefix p instances filled_columns) as [rest R].
  pose proof (final_plates_NoDup p instances filled_columns) as N.
  split.
  - apply (NoDup_app_remove_r _ (aspirated rest)).
    unfold aspirated at 1 2. rewrite <- flat_map_app.
    fold (aspirated (commands (trace p instances filled_columns) ++ rest)).
    rewrite R, aspirated_dilutions.
    pose proof (wells_NoDup 0 filled_columns _ N) as W.
    erewrite flat_map_ext; [exact W|].
    intros pl. apply map_ext. intros j. now rewrite Z.add_0_r.
  - apply (NoDup_app_remove_r _ (dispensed rest)).
    unfold dispensed at 1 2. rewrite <- flat_map_app.
    fold (dispensed (commands (trace p instances filled_columns) ++ rest)).
    rewrite R, dispensed_dilutions.
    exact (wells_NoDup 1 filled_columns _ N).
Qed.

(** ** Names and methods *)

(** X11: [how_many] never fails and always names a method of [switch]:
    one of the six layouts for a count in 1..6, without printing, and
    [default] for any other count, after printing the diagnostic.  The
    fallback of [getattr], a string that cannot be called, is never what
    line 155 gets. *)
Theorem how_many_names_a_method (p : params) (num : Z) (w : world) :
  exists (name : string) (method : M unit),
    how_many num w
    = (Normal name,
       add_log w (if valid_instances num then []
                  else [Print invalid_instances_message]))
    /\ switch.getattr p name = Some method
    /\ String.eqb name "default" = negb (valid_instances num).
Proof.
  destruct (Z_lt_le_dec num 1) as [Lo|Lo];
    [|destruct (Z_lt_le_dec 6 num) as [Hi|Hi]].
  - exists "default"%string, switch.default.
    rewrite (valid_instances_false num (or_introl Lo)).
    rewrite (how_many_invalid num w (or_introl Lo)). repeat split.
  - exists "default"%string, switch.default.
    rewrite (valid_instances_false num (or_intror Hi)).
    rewrite (how_many_invalid num w (or_intror Hi)). repeat split.
  - assert (V : 1 <= num <= 6) by lia.
    destruct (valid_cases num V) as [E|[E|[E|[E|[E|E]]]]]; subst num;
      cbn [valid_instances Z.leb Z.compare Pos.compare Pos.compare_cont andb];
      rewrite add_log_nil;
      [ exists "one"%string, (switch.one p)
      | exists "two"%string, (switch.two p)
      | exists "three"%string, (switch.three p)
      | exists "four"%string, (switch.four p)
      | exists "five"%string, (switch.five p)
      | exists "six"%string, (switch.six p) ];
      repeat split.
Qed.

(** ** Volumes *)

Lemma labware_eqb_eq (a b : labware) : labware_eqb a b = true <-> a = b.
Proof.
  destruct a as [na sa], b as [nb sb]. unfold labware_eqb. cbn.
  rewrite andb_true_iff, String.eqb_eq, Z.eqb_eq.
  split; [intros [-> ->]; reflexivity|intros E; now injection E].
Qed.

Lemma labware_eqb_refl (a : labware) : labware_eqb a a = true.
Proof. now apply labware_eqb_eq. Qed.

Lemma net_volume_app (w : well) (a b : list event) :
  net_volume w (a ++ b) = net_volume w a + net_volume w b.
Proof.
  unfold net_volume. induction a as [|e a IH]; cbn; [reflexivity|].
  rewrite IH. lia.
Qed.

(** The volume in a well of column [j] of plate [pl], seen from well [w]. *)
Lemma net_volume_transfers (p : params) (w : well) (pl : labware) (n : nat) :
  forall a : nat,
    net_volume w (flat_map (transfer_events p pl) (map Z.of_nat (seq a n)))
    = (if well_eqb w (Well pl (Z.of_nat (a + n)) 0) then dilution_volume p else 0)
      - (if well_eqb w (Well pl (Z.of_nat a) 0) then dilution_volume p else 0).
Proof.
  induction n as [|n IH]; intros a.
  - cbn [seq map flat_map net_volume fold_right]. rewrite Nat.add_0_r. lia.
  - cbn [seq map flat_map]. rewrite net_volume_app, IH.
    replace (S a + n)%nat with (a + S n)%nat by lia.
    replace (Z.of_nat (S a)) with (Z.of_nat a + 1) by lia.
    unfold net_volume, transfer_events. cbn [fold_right volume_change].
    destruct (well_eqb w (Well pl (Z.of_nat a) 0));
      destruct (well_eqb w (Well pl (Z.of_nat a + 1) 0));
      destruct (well_eqb w (Well pl (Z.of_nat (a + S n)) 0)); lia.
Qed.

Lemma net_volume_dilute (p : params) (f : Z) (pl0 pl : labware) (k : Z) :
  net_volume (Well pl0 k 0) (dilute_events p f pl)
  = if labware_eqb pl0 pl
    then (if k =? Z.max 0 (f - 1) then dilution_volume p else 0)
         - (if k =? 0 then dilution_volume p else 0)
    else 0.
Proof.
  unfold dilute_events. rewrite net_volume_app.
  unfold py_range. rewrite net_volume_transfers.
  unfold well_eqb. cbn [plate column row net_volume fold_right volume_change app].
  replace (Z.of_nat (0 + Z.to_nat (f - 1))) with (Z.max 0 (f - 1)) by lia.
  destruct (labware_eqb pl0 pl); cbn [andb]; [|lia].
  change (Z.of_nat 0) with 0. rewrite !andb_true_r. lia.
Qed.

Lemma net_volume_dilutions (p : params) (f : Z) (pl0 : labware) (k : Z)
  (pls : list labware) :
  NoDup pls ->
  net_volume (Well pl0 k 0) (flat_map (dilute_events p f) pls)
  = if existsb (labware_eqb pl0) pls
    then (if k =? Z.max 0 (f - 1) then dilution_volume p else 0)
         - (if k =? 0 then dilution_volume p else 0)
    else 0.
Proof.
  induction 1 as [|pl pls Hpl Hnd IH]; [reflexivity|].
  cbn [flat_map existsb]. rewrite net_volume_app, net_volume_dilute, IH.
  destruct (labware_eqb pl0 pl) eqn:E; cbn [orb]; [|lia].
  apply labware_eqb_eq in E. subst pl0.
  replace (existsb (labware_eqb pl) pls) with false; [lia|].
  symmetry. apply not_true_is_false. intros A. apply existsb_exists in A.
  destruct A as [x [Hx Ex]]. apply labware_eqb_eq in Ex. now subst x.
Qed.

(** X12: the volume balance of a dilution.  In a run with at most 12
    filled columns that is not stopped, on every plate of the layout the
    first well of column 0 gives one dilution volume, the first well of
    the last filled column receives one and keeps it, and the first well
    of every other column ends with what it had; with at most one filled
    column no volume moves at all. *)
Theorem volume_balance (p : params) (instances filled_columns : Z)
  (pl : labware) (k : Z) :
  valid_instances instances = true ->
  too_many_columns instances filled_columns = false ->
  filled_columns <= 12 ->
  In pl (dilutionplate_10X (layout p instances)) ->
  net_volume (Well pl k 0) (trace p instances filled_columns)
  = (if k =? Z.max 0 (filled_columns - 1) then dilution_volume p else 0)
    - (if k =? 0 then dilution_volume p else 0).
Proof.
  intros V G F Hpl. apply valid_instances_range in V.
  unfold trace. rewrite (execute_valid p instances filled_columns V G F).
  unfold ended. cbn [snd log].
  rewrite net_volume_app.
  change (LoadInstrument (pipette_type p) "right" (tiprack_10X (layout p instances))
          :: flat_map (dilute_events p filled_columns)
               (dilutionplate_10X (layout p instances)))
    with ([LoadInstrument (pipette_type p) "right" (tiprack_10X (layout p instances))]
          ++ flat_map (dilute_events p filled_columns)
               (dilutionplate_10X (layout p instances))).
  rewrite net_volume_app.
  rewrite (net_volume_dilutions p filled_columns pl k _
             (layout_plates_NoDup p instances V)).
  replace (existsb (labware_eqb pl) (dilutionplate_10X (layout p instances)))
    with true.
  - assert (L : net_volume (Well pl k 0) (log (layout p instances)) = 0).
    { pose proof (layout_log_loads p instances V) as L.
      induction L as [|e l He _ IH]; [reflexivity|].
      unfold net_volume in *. cbn [fold_right]. rewrite IH.
      destruct e; cbn in He |- *; congruence. }
    rewrite L. cbn [net_volume fold_right volume_change]. lia.
  - symmetry. apply existsb_exists. exists pl.
    split; [exact Hpl|apply labware_eqb_refl].
Qed.

Lemma volume_balance_witness :
  valid_instances 2 = true /\ too_many_columns 2 4 = false /\ 4 <= 12
  /\ In (Labware (plate_type default_params) 11)
        (dilutionplate_10X (layout default_params 2))
  /\ net_volume (Well (Labware (plate_type default_params) 11) 3 0)
                (trace default_params 2 4)
     = (if 3 =? Z.max 0 (4 - 1) then dilution_volume default_params else 0)
       - (if 3 =? 0 then dilution_volume default_params else 0).
Proof.
  assert (I : In (Labware (plate_type default_params) 11)
                 (dilutionplate_10X (layout default_params 2)))
    by (simpl; left; reflexivity).
  split; [reflexivity|]. split; [reflexivity|]. split; [lia|]. split; [exact I|].
  apply (volume_balance default_params 2 4);
    [reflexivity|reflexivity|lia|exact I].
Defined.
